(** * A message-relay bot: admin registry, rate limiter, relay, reply and
      broadcast flows

    Shallow embedding of [src/telegram_bot.py].

    - Python integers are [Z]; the float seconds of [time.time()] are exact
      rationals [Q] (no rounding); strings are [string].
    - [AdminManager._admins] is a [gset Z], iterated in the order of
      [elements]; [RateLimiter._user_messages], a [defaultdict(list)], is a
      [gmap Z (list Q)] read with default [[]].
    - The two MongoDB collections are lists of documents in natural
      (insertion) order.
    - A handler is a function from the world before to the world after and
      the value the coroutine returns or the exception it raises.  The world
      carries a trace of what the handler did to the outside.
    - [context.bot.send_message], which the source calls inside [try]
      blocks, raises or not as the environment decides; the other awaited
      calls (answers in the chat of the update, the store) return
      normally. *)

From Stdlib Require Import ZArith QArith Qround Lia Lqa String Ascii DecimalString
  DecimalPos.
From stdpp Require Import base decidable list gmap fin_sets strings.

Local Open Scope Z_scope.

(** ** Configuration (module-level constants read from the environment) *)

Record Config := {
  RATE_LIMIT_MESSAGES : Z;   (* int(os.getenv("RATE_LIMIT_MESSAGES", "5")) *)
  RATE_LIMIT_WINDOW : Z      (* int(os.getenv("RATE_LIMIT_WINDOW", "60")) *)
}.

Definition default_config : Config :=
  {| RATE_LIMIT_MESSAGES := 5; RATE_LIMIT_WINDOW := 60 |}.

(** Conversation states; [END] is [ConversationHandler.END]. *)
Inductive conv_state :=
  | END
  | WAITING_FOR_REPLY
  | WAITING_FOR_BROADCAST
  | CONFIRM_BROADCAST.

(** ** Python built-ins used by the source *)

(** Exceptions that the modelled code can raise. *)
Inductive exn :=
  | ValueError (msg : string)
  | IndexError (msg : string).

Inductive res (A : Type) :=
  | Ret (a : A)
  | Raise (e : exn).
Arguments Ret {A} a.
Arguments Raise {A} e.

(** [a > b] on floats. *)
Definition Qgtb (a b : Q) : bool := negb (Qle_bool a b).

(** [a <= b] on floats is decidable. *)
#[local] Instance Qle_decision (a b : Q) : Decision (a <= b)%Q.
Proof.
  destruct (Qle_bool a b) eqn:E.
  - left. by apply Qle_bool_iff.
  - right. intros H. apply Qle_bool_iff in H. congruence.
Defined.

(** [int(x)] on a float: truncation toward zero. *)
Definition py_int (x : Q) : Z := Z.quot (Qnum x) (Z.pos (Qden x)).

(** [min(l)] on a list: the first least element; [ValueError] on []. *)
Fixpoint min_from (best : Q) (l : list Q) : Q :=
  match l with
  | [] => best
  | t :: l' => min_from (if Qgtb best t then t else best) l'
  end.

Definition py_min (l : list Q) : res Q :=
  match l with
  | [] => Raise (ValueError "min() arg is an empty sequence")
  | t :: l' => Ret (min_from t l')
  end.

(** ** AdminManager *)

Module AdminManager.

(** [user_id in cls._admins] *)
Definition is_admin (_admins : gset Z) (user_id : Z) : bool :=
  bool_decide (user_id ∈ _admins).

(** Returns the new set and the method's result. *)
Definition add_admin (_admins : gset Z) (user_id : Z) : gset Z * bool :=
  if negb (bool_decide (user_id ∈ _admins))
  then (_admins ∪ {[user_id]}, true)
  else (_admins, false).

Definition remove_admin (_admins : gset Z) (user_id : Z) : gset Z * bool :=
  if bool_decide (user_id ∈ _admins) && (Z.of_nat (size _admins) >? 1)
  then (_admins ∖ {[user_id]}, true)
  else (_admins, false).

(** [cls._admins.copy()], iterated by the callers in the set's order. *)
Definition get_admins (_admins : gset Z) : list Z := elements _admins.

Definition get_admin_count (_admins : gset Z) : Z := Z.of_nat (size _admins).

(** The two mutators as commands, to run sequences of them. *)
Inductive op :=
  | Add (user_id : Z)
  | Remove (user_id : Z).

Definition step (_admins : gset Z) (o : op) : gset Z :=
  match o with
  | Add u => fst (add_admin _admins u)
  | Remove u => fst (remove_admin _admins u)
  end.

Definition run (_admins : gset Z) (ops : list op) : gset Z :=
  foldl step _admins ops.

End AdminManager.

(** ** RateLimiter *)

Module RateLimiter.

(** [cls._user_messages[user_id]] on the [defaultdict(list)]. *)
Definition window (_user_messages : gmap Z (list Q)) (user_id : Z) : list Q :=
  default [] (_user_messages !! user_id).

(** [current_time] is the value [time.time()] returns in this call.  The
    result pairs the dictionary after the call with what the call returns
    or raises. *)
Definition check_rate_limit (cfg : Config) (current_time : Q)
    (_user_messages : gmap Z (list Q)) (user_id : Z)
    : gmap Z (list Q) * res (bool * Z) :=
  let window_start := (current_time - inject_Z (RATE_LIMIT_WINDOW cfg))%Q in
  let kept := List.filter (fun t => Qgtb t window_start)
                          (window _user_messages user_id) in
  let _user_messages := <[user_id := kept]> _user_messages in
  if Z.of_nat (length kept) >=? RATE_LIMIT_MESSAGES cfg then
    match py_min kept with
    | Raise e => (_user_messages, Raise e)
    | Ret oldest =>
        let wait_time :=
          py_int (oldest + inject_Z (RATE_LIMIT_WINDOW cfg) - current_time)%Q + 1 in
        (_user_messages, Ret (false, Z.max 0 wait_time))
    end
  else
    (<[user_id := kept ++ [current_time]]> _user_messages, Ret (true, 0)).

(** Successive calls by one identity at the given times. *)
Fixpoint calls (cfg : Config) (_user_messages : gmap Z (list Q)) (user_id : Z)
    (times : list Q) : gmap Z (list Q) * list (res (bool * Z)) :=
  match times with
  | [] => (_user_messages, [])
  | now :: times' =>
      let '(m, r) := check_rate_limit cfg now _user_messages user_id in
      let '(m', rs) := calls cfg m user_id times' in
      (m', r :: rs)
  end.

(** The same call seen on the identity's window alone, and the results
    of successive calls seen that way. *)
Definition on_window (cfg : Config) (current_time : Q) (w : list Q)
    : list Q * res (bool * Z) :=
  let m := fst (check_rate_limit cfg current_time {[0 := w]} 0) in
  (window m 0, snd (check_rate_limit cfg current_time {[0 := w]} 0)).

Fixpoint results (cfg : Config) (w : list Q) (times : list Q)
    : list (res (bool * Z)) :=
  match times with
  | [] => []
  | now :: times' =>
      let '(w', r) := on_window cfg now w in r :: results cfg w' times'
  end.

End RateLimiter.

(** ** Strings *)

Local Open Scope string_scope.
Local Open Scope Z_scope.

(** The newline of Python's ["\n"]. *)
Definition nl : string := String (ascii_of_nat 10) EmptyString.

(** [str(n)] for an [int], as an f-string renders it. *)
Definition str_int (n : Z) : string := NilZero.string_of_int (Z.to_int n).

(** An [Optional[str]] inside an f-string. *)
Definition str_opt (s : option string) : string := default "None" s.

(** Truthiness of an [Optional[str]]: [None] and [""] are falsy. *)
Definition truthy (s : option string) : bool :=
  match s with
  | Some s => negb (bool_decide (s = ""))
  | None => false
  end.

(** [a or b] with [b] a string. *)
Definition or_else (a : option string) (b : string) : string :=
  if truthy a then default b a else b.

(** [sep.join(parts)] *)
Fixpoint join (sep : string) (parts : list string) : string :=
  match parts with
  | [] => ""
  | [p] => p
  | p :: rest => p +:+ sep +:+ join sep rest
  end.

(** [s.split(sep)] for a one-character separator. *)
Fixpoint split (sep : ascii) (s : string) : list string :=
  match s with
  | EmptyString => [""]
  | String c s' =>
      if Ascii.eqb c sep then "" :: split sep s'
      else match split sep s' with
           | p :: ps => String c p :: ps
           | [] => [String c ""]
           end
  end.

Definition digit (c : ascii) : option Z :=
  let n := Z.of_nat (nat_of_ascii c) in
  if (48 <=? n) && (n <=? 57) then Some (n - 48) else None.

Fixpoint digits (s : string) (acc : Z) : option Z :=
  match s with
  | EmptyString => Some acc
  | String c s' =>
      match digit c with
      | Some d => digits s' (10 * acc + d)
      | None => None
      end
  end.

(** [int(s)] on the strings the callback patterns let through, runs of
    ASCII digits; anything else is a [ValueError] here. *)
Definition int_of_str (s : string) : res Z :=
  match s with
  | EmptyString => Raise (ValueError "invalid literal for int()")
  | _ => match digits s 0 with
         | Some n => Ret n
         | None => Raise (ValueError "invalid literal for int()")
         end
  end.

(** ** Data models *)

(** [telegram.User], the sender of an update. *)
Record User := {
  id : Z;
  tg_username : option string;
  tg_first_name : option string;
  tg_last_name : option string
}.

Record UserModel := {
  user_id : Z;
  username : option string;
  first_name : option string;
  last_name : option string;
  is_blocked : bool;
  created_at : option string;
  last_active : option string
}.

(** A document of the [messages] collection, with the keys
    [save_message] writes. *)
Record MessageDocument := {
  msg_user_id : Z;
  admin_id : option Z;
  message_text : option string;
  direction : string;
  msg_created_at : option string
}.

(** The two collections, documents in natural order. *)
Record Database := {
  users : list UserModel;
  messages : list MessageDocument
}.

(** ** Repositories *)

Module UserRepository.

(** [find_one({"user_id": user_id})]: the first matching document. *)
Definition find_one (db : Database) (uid : Z) : option UserModel :=
  List.find (fun d => user_id d =? uid) (users db).

(** The [$set] part of the upsert, applied to the first matching
    document. *)
Fixpoint update_first (uid : Z) (un fn ln : option string) (now : string)
    (docs : list UserModel) : list UserModel :=
  match docs with
  | [] => []
  | d :: docs' =>
      if user_id d =? uid
      then {| user_id := user_id d; username := un; first_name := fn;
              last_name := ln; is_blocked := is_blocked d;
              created_at := created_at d; last_active := Some now |} :: docs'
      else d :: update_first uid un fn ln now docs'
  end.

(** The fields a repository method copies into the [UserModel] it
    returns. *)
Definition to_model (d : UserModel) : UserModel :=
  {| user_id := user_id d; username := username d;
     first_name := first_name d; last_name := last_name d;
     is_blocked := is_blocked d; created_at := None; last_active := None |}.

(** [find_one_and_update(..., upsert=True, return_document=True)];
    [now] is the ISO timestamp of this call. *)
Definition create_or_update (now : string) (db : Database) (uid : Z)
    (un fn ln : option string) : Database * UserModel :=
  let docs :=
    match find_one db uid with
    | Some _ => update_first uid un fn ln now (users db)
    | None =>
        (users db ++ [{| user_id := uid; username := un; first_name := fn;
                         last_name := ln; is_blocked := false;
                         created_at := Some now; last_active := Some now |}])%list
    end in
  let db' := {| users := docs; messages := messages db |} in
  (db', match find_one db' uid with
        | Some d => to_model d
        | None => to_model {| user_id := uid; username := un; first_name := fn;
                              last_name := ln; is_blocked := false;
                              created_at := None; last_active := None |}
        end).

Definition get_by_id (db : Database) (uid : Z) : option UserModel :=
  to_model <$> find_one db uid.

(** [find({"is_blocked": False}).limit(1000)] *)
Definition get_all_active (db : Database) : list UserModel :=
  to_model <$> take 1000 (List.filter (fun d => negb (is_blocked d)) (users db)).

(** [count_documents({})] *)
Definition get_user_count (db : Database) : Z :=
  Z.of_nat (length (users db)).

(** [update_one({"user_id": uid}, {"$set": {"is_blocked": b}})]: the first
    matching document gets the flag; without a match nothing is written. *)
Fixpoint set_blocked (uid : Z) (b : bool) (docs : list UserModel)
    : list UserModel :=
  match docs with
  | [] => []
  | d :: docs' =>
      if user_id d =? uid
      then {| user_id := user_id d; username := username d;
              first_name := first_name d; last_name := last_name d;
              is_blocked := b; created_at := created_at d;
              last_active := last_active d |} :: docs'
      else d :: set_blocked uid b docs'
  end.

(** Both return [True] whatever the store held. *)
Definition block_user (db : Database) (uid : Z) : Database * bool :=
  ({| users := set_blocked uid true (users db); messages := messages db |}, true).

Definition unblock_user (db : Database) (uid : Z) : Database * bool :=
  ({| users := set_blocked uid false (users db); messages := messages db |}, true).

Definition is_blocked (db : Database) (uid : Z) : bool :=
  match get_by_id db uid with
  | Some user => is_blocked user
  | None => false
  end.

End UserRepository.

Module MessageRepository.

(** The document [save_message] inserts; [now] is the ISO timestamp of
    this call. *)
Definition document (now : string) (uid : Z) (text : option string)
    (dir : string) (admin : option Z) : MessageDocument :=
  {| msg_user_id := uid; admin_id := admin; message_text := text;
     direction := dir; msg_created_at := Some now |}.

(** [insert_one] *)
Definition save_message (now : string) (db : Database) (uid : Z)
    (text : option string) (dir : string) (admin : option Z) : Database :=
  {| users := users db;
     messages := (messages db ++ [document now uid text dir admin])%list |}.

Definition get_message_count (db : Database) : Z :=
  Z.of_nat (length (messages db)).

End MessageRepository.

(** ** Keyboards *)

Inductive markup :=
  | InlineKeyboardMarkup (rows : list (list (string * string)))
  | ReplyKeyboardMarkup (rows : list (list string)).

Definition get_user_menu : markup :=
  ReplyKeyboardMarkup [["Send Message to Admin"]; ["Help"; "About"]].

Definition get_admin_menu : markup :=
  ReplyKeyboardMarkup
    [["Dashboard"; "Users"]; ["Broadcast"; "Logs"]; ["Add Admin"; "Settings"]].

Definition get_reply_keyboard (uid : Z) : markup :=
  InlineKeyboardMarkup
    [[("Reply", "reply_" +:+ str_int uid)];
     [("Block", "block_" +:+ str_int uid);
      ("History", "history_" +:+ str_int uid)]].

Definition get_confirm_broadcast_keyboard : markup :=
  InlineKeyboardMarkup
    [[("Confirm", "broadcast_confirm"); ("Cancel", "broadcast_cancel")]].

(** ** Formatters *)

Definition format_user_info (user : User) : string :=
  let parts := ["User ID: " +:+ str_int (id user)] in
  let name := or_else (tg_first_name user) "" in
  let name := if truthy (tg_last_name user)
              then name +:+ " " +:+ str_opt (tg_last_name user) else name in
  let parts := if truthy (Some name)
               then (parts ++ ["Name: " +:+ name])%list else parts in
  let parts := if truthy (tg_username user)
               then (parts ++ ["Username: @" +:+ str_opt (tg_username user)])%list
               else parts in
  join nl parts.

Definition format_message_for_admin (user : User) (message_text : string) : string :=
  "New message from user:" +:+ nl +:+ format_user_info user +:+ nl +:+ nl
  +:+ "Message:" +:+ nl +:+ message_text.

(** ** The world a handler runs in *)

(** What a handler does to the outside: calls of the Bot API, writes to the
    store, lines of the error log; in the order they happen. *)
Inductive effect :=
  | SendMessage (chat_id : Z) (text : string) (reply_markup : option markup)
                (raised : option string)      (* context.bot.send_message *)
  | ReplyText (text : string) (reply_markup : option markup)
                                              (* message.reply_text *)
  | EditText (text : string)                  (* query.message.edit_text *)
  | Answer                                    (* query.answer() *)
  | UpsertUser (uid : Z)                      (* users.find_one_and_update *)
  | InsertMessage (doc : MessageDocument)        (* messages.insert_one *)
  | LogError (line : string).                 (* logger.error *)

(** [context.user_data] of one user: a dict with at most these two keys
    ([None] = key absent). *)
Record UserData := {
  reply_to_user : option Z;
  broadcast_message : option string
}.

Definition no_user_data : UserData :=
  {| reply_to_user := None; broadcast_message := None |}.

Record World := {
  _admins : gset Z;                       (* AdminManager._admins *)
  _user_messages : gmap Z (list Q);       (* RateLimiter._user_messages *)
  db : Database;
  user_data : gmap Z UserData;            (* context.user_data, per user *)
  reply_conv : gmap Z conv_state;         (* states of the reply conversation *)
  broadcast_conv : gmap Z conv_state;     (* states of the broadcast conversation *)
  trace : list effect
}.

(** What the handler's run reads from outside: the clock, and whether the
    platform accepts a [bot.send_message] ([None]) or the call raises (the
    exception's text), which may depend on everything done so far. *)
Record Env := {
  time_now : Q;                           (* time.time() *)
  iso_now : string;                       (* datetime.now(...).isoformat() *)
  deliver : list effect -> Z -> string -> option string
}.

(** An incoming update: the sender, [update.message.text] and
    [update.callback_query.data]. *)
Record Update := {
  effective_user : User;
  text : option string;
  data : string
}.

Definition set_trace (w : World) (t : list effect) : World :=
  {| _admins := _admins w; _user_messages := _user_messages w; db := db w;
     user_data := user_data w; reply_conv := reply_conv w;
     broadcast_conv := broadcast_conv w; trace := t |}.

Definition emit (w : World) (e : effect) : World :=
  set_trace w (trace w ++ [e])%list.

Definition set_user_messages (w : World) (m : gmap Z (list Q)) : World :=
  {| _admins := _admins w; _user_messages := m; db := db w;
     user_data := user_data w; reply_conv := reply_conv w;
     broadcast_conv := broadcast_conv w; trace := trace w |}.

Definition set_db (w : World) (d : Database) : World :=
  {| _admins := _admins w; _user_messages := _user_messages w; db := d;
     user_data := user_data w; reply_conv := reply_conv w;
     broadcast_conv := broadcast_conv w; trace := trace w |}.

Definition set_user_data (w : World) (uid : Z) (d : UserData) : World :=
  {| _admins := _admins w; _user_messages := _user_messages w; db := db w;
     user_data := <[uid := d]> (user_data w); reply_conv := reply_conv w;
     broadcast_conv := broadcast_conv w; trace := trace w |}.

Definition set_reply_conv (w : World) (c : gmap Z conv_state) : World :=
  {| _admins := _admins w; _user_messages := _user_messages w; db := db w;
     user_data := user_data w; reply_conv := c;
     broadcast_conv := broadcast_conv w; trace := trace w |}.

Definition set_broadcast_conv (w : World) (c : gmap Z conv_state) : World :=
  {| _admins := _admins w; _user_messages := _user_messages w; db := db w;
     user_data := user_data w; reply_conv := reply_conv w;
     broadcast_conv := c; trace := trace w |}.

Definition get_user_data (w : World) (uid : Z) : UserData :=
  default no_user_data (user_data w !! uid).

(** [await context.bot.send_message(chat_id, text, reply_markup=...)]: the
    world after the call, and the exception it raised if any. *)
Definition send_message (env : Env) (w : World) (chat_id : Z) (text : string)
    (kb : option markup) : World * option string :=
  let raised := deliver env (trace w) chat_id text in
  (emit w (SendMessage chat_id text kb raised), raised).

Definition reply_text (w : World) (text : string) : World :=
  emit w (ReplyText text None).

Definition edit_text (w : World) (text : string) : World :=
  emit w (EditText text).

(** [UserRepository.create_or_update] and [MessageRepository.save_message]
    on the world's store. *)
Definition create_or_update (env : Env) (w : World) (user : User) : World :=
  let '(d, _) := UserRepository.create_or_update (iso_now env) (db w) (id user)
                   (tg_username user) (tg_first_name user) (tg_last_name user) in
  emit (set_db w d) (UpsertUser (id user)).

Definition save_message (env : Env) (w : World) (uid : Z) (text : option string)
    (dir : string) (admin : option Z) : World :=
  let d := MessageRepository.save_message (iso_now env) (db w) uid text dir admin in
  emit (set_db w d)
       (InsertMessage (MessageRepository.document (iso_now env) uid text dir admin)).

(** A handler: the world after the run, and what the coroutine returned
    ([None] for no [return] value) or raised. *)
Definition handler := Env -> Update -> World -> World * res (option conv_state).

(** ** Permission decorator *)

Definition check_admin (func : handler) : handler :=
  fun env update w =>
    if negb (AdminManager.is_admin (_admins w) (id (effective_user update)))
    then (reply_text w "You don't have permission to use this command.", Ret None)
    else func env update w.

(** ** User handlers *)

Definition help_command : handler :=
  fun env update w =>
    (reply_text w
       ("How to use this bot:" +:+ nl +:+ nl
        +:+ "1. Simply type your message to contact admin" +:+ nl
        +:+ "2. Wait for admin to reply" +:+ nl
        +:+ "3. You'll receive responses directly here" +:+ nl +:+ nl
        +:+ "Commands:" +:+ nl +:+ "/start - Start the bot" +:+ nl
        +:+ "/help - Show this help message"),
     Ret None).

Definition about_command : handler :=
  fun env update w =>
    (reply_text w
       ("Talk to Admin Bot" +:+ nl +:+ nl
        +:+ "This bot allows you to communicate directly with our admin team."
        +:+ nl +:+ "Version: 1.0.0"),
     Ret None).

Definition menu_handler : handler :=
  fun env update w =>
    if bool_decide (text update = Some "Send Message to Admin") then
      (reply_text w "Just type your message and I'll forward it to the admin team!",
       Ret None)
    else if bool_decide (text update = Some "Help") then
      let '(w, _) := help_command env update w in (w, Ret None)
    else if bool_decide (text update = Some "About") then
      let '(w, _) := about_command env update w in (w, Ret None)
    else (w, Ret None).

(** The loop of [handle_user_message] over the admins still to notify. *)
Fixpoint fan_out (env : Env) (w : World) (uid : Z) (admin_message : string)
    (admins : list Z) (sent_count : Z) : World * Z :=
  match admins with
  | [] => (w, sent_count)
  | admin_id :: rest =>
      match send_message env w admin_id admin_message
                         (Some (get_reply_keyboard uid)) with
      | (w, None) => fan_out env w uid admin_message rest (sent_count + 1)
      | (w, Some e) =>
          let w := emit w (LogError ("Failed to send to admin "
                                     +:+ str_int admin_id +:+ ": " +:+ e)) in
          fan_out env w uid admin_message rest sent_count
      end
  end.

Definition handle_user_message (cfg : Config) : handler :=
  fun env update w =>
    let user := effective_user update in
    if AdminManager.is_admin (_admins w) (id user) then (w, Ret None)
    else if UserRepository.is_blocked (db w) (id user) then
      (reply_text w "You have been blocked from using this bot.", Ret None)
    else
      let '(m, r) := RateLimiter.check_rate_limit cfg (time_now env)
                       (_user_messages w) (id user) in
      let w := set_user_messages w m in
      match r with
      | Raise e => (w, Raise e)
      | Ret (allowed, wait_time) =>
          if negb allowed then
            (reply_text w ("Please slow down! Wait " +:+ str_int wait_time
                           +:+ " seconds before sending another message."),
             Ret None)
          else
            let w := create_or_update env w user in
            let message_text := or_else (text update) "[Media message]" in
            let w := save_message env w (id user) (Some message_text)
                                  "user_to_admin" None in
            let admin_message := format_message_for_admin user message_text in
            let '(w, sent_count) :=
              fan_out env w (id user) admin_message
                      (AdminManager.get_admins (_admins w)) 0 in
            if sent_count >? 0 then
              (reply_text w "Your message has been sent to admin. Please wait for a response.",
               Ret None)
            else
              (reply_text w "Sorry, couldn't deliver your message. Please try again later.",
               Ret None)
      end.

(** ** Reply handlers *)

(** [int(query.data.split('_')[1])] *)
Definition callback_target (data : string) : res Z :=
  match split "_"%char data with
  | _ :: part :: _ => int_of_str part
  | _ => Raise (IndexError "list index out of range")
  end.

Definition reply_callback : handler :=
  fun env update w =>
    let me := id (effective_user update) in
    let w := emit w Answer in
    if negb (AdminManager.is_admin (_admins w) me) then (w, Ret (Some END))
    else
      match callback_target (data update) with
      | Raise e => (w, Raise e)
      | Ret uid =>
          let d := get_user_data w me in
          let w := set_user_data w me
                     {| reply_to_user := Some uid;
                        broadcast_message := broadcast_message d |} in
          let name :=
            match UserRepository.get_by_id (db w) uid with
            | Some user => str_opt (first_name user)
            | None => "User " +:+ str_int uid
            end in
          (reply_text w ("Replying to " +:+ name +:+ " (ID: " +:+ str_int uid
                         +:+ ")" +:+ nl +:+ "Type your reply or /cancel:"),
           Ret (Some WAITING_FOR_REPLY))
      end.

Definition handle_admin_reply : handler :=
  fun env update w =>
    let me := id (effective_user update) in
    match reply_to_user (get_user_data w me) with
    | None => (w, Ret (Some END))
    | Some uid =>
        let reply := text update in
        let w :=
          match send_message env w uid
                  ("Reply from Admin:" +:+ nl +:+ nl +:+ str_opt reply) None with
          | (w, None) =>
              let w := save_message env w uid reply "admin_to_user" (Some me) in
              reply_text w ("Reply sent to user " +:+ str_int uid +:+ "!")
          | (w, Some e) =>
              reply_text w ("Failed to send reply: " +:+ e)
          end in
        let d := get_user_data w me in
        let w := set_user_data w me
                   {| reply_to_user := None;
                      broadcast_message := broadcast_message d |} in
        (w, Ret (Some END))
    end.

Definition cancel_reply : handler :=
  fun env update w =>
    let me := id (effective_user update) in
    let d := get_user_data w me in
    let w := set_user_data w me
               {| reply_to_user := None;
                  broadcast_message := broadcast_message d |} in
    (reply_text w "Cancelled.", Ret (Some END)).

(** ** Broadcast handlers *)

Definition broadcast_handler : handler :=
  check_admin (fun env update w =>
    let user_count := UserRepository.get_user_count (db w) in
    (reply_text w ("Broadcast to " +:+ str_int user_count +:+ " users." +:+ nl
                   +:+ "Type your message or /cancel:"),
     Ret (Some WAITING_FOR_BROADCAST))).

Definition pop_broadcast_message (w : World) (me : Z) : World :=
  let d := get_user_data w me in
  set_user_data w me {| reply_to_user := reply_to_user d;
                        broadcast_message := None |}.

Definition receive_broadcast_message : handler :=
  fun env update w =>
    let me := id (effective_user update) in
    if negb (AdminManager.is_admin (_admins w) me) then (w, Ret (Some END))
    else
      let d := get_user_data w me in
      let w := set_user_data w me {| reply_to_user := reply_to_user d;
                                     broadcast_message := text update |} in
      let user_count := UserRepository.get_user_count (db w) in
      (emit w (ReplyText ("Preview:" +:+ nl +:+ nl +:+ str_opt (text update)
                          +:+ nl +:+ nl +:+ "Send to " +:+ str_int user_count
                          +:+ " users?")
                         (Some get_confirm_broadcast_keyboard)),
       Ret (Some CONFIRM_BROADCAST)).

(** The loop of [broadcast_confirm_callback] over the users still to
    reach. *)
Fixpoint broadcast_loop (env : Env) (w : World) (announcement : string)
    (targets : list UserModel) (sent failed : Z) : World * (Z * Z) :=
  match targets with
  | [] => (w, (sent, failed))
  | user :: rest =>
      match send_message env w (user_id user) announcement None with
      | (w, None) => broadcast_loop env w announcement rest (sent + 1) failed
      | (w, Some _) => broadcast_loop env w announcement rest sent (failed + 1)
      end
  end.

Definition broadcast_confirm_callback : handler :=
  fun env update w =>
    let me := id (effective_user update) in
    let w := emit w Answer in
    if bool_decide (data update = "broadcast_cancel") then
      let w := pop_broadcast_message w me in
      (edit_text w "Broadcast cancelled.", Ret (Some END))
    else
      let broadcast_text := broadcast_message (get_user_data w me) in
      if negb (truthy broadcast_text) then
        (edit_text w "No message found. Start again.", Ret (Some END))
      else
        let active := UserRepository.get_all_active (db w) in
        let w := edit_text w ("Sending to " +:+ str_int (Z.of_nat (length active))
                              +:+ " users...") in
        let '(w, (sent, failed)) :=
          broadcast_loop env w
            ("Announcement:" +:+ nl +:+ nl +:+ str_opt broadcast_text)
            active 0 0 in
        let w := reply_text w ("Broadcast Complete!" +:+ nl +:+ "Sent: "
                               +:+ str_int sent +:+ nl +:+ "Failed: "
                               +:+ str_int failed) in
        let w := pop_broadcast_message w me in
        (w, Ret (Some END)).

Definition cancel_broadcast : handler :=
  fun env update w =>
    let w := pop_broadcast_message w (id (effective_user update)) in
    (reply_text w "Broadcast cancelled.", Ret (Some END)).

(** ** Admin handlers *)

Definition reply_text_with (w : World) (text : string) (kb : markup) : World :=
  emit w (ReplyText text (Some kb)).

Definition dashboard_handler : handler :=
  check_admin (fun env update w =>
    let user_count := UserRepository.get_user_count (db w) in
    let message_count := MessageRepository.get_message_count (db w) in
    (reply_text_with w
       ("Admin Dashboard" +:+ nl +:+ nl +:+ "Total Users: " +:+ str_int user_count
        +:+ nl +:+ "Total Messages: " +:+ str_int message_count +:+ nl
        +:+ "Active Admins: "
        +:+ str_int (AdminManager.get_admin_count (_admins w)))
       get_admin_menu,
     Ret None)).

(** The loop of [users_handler] over [users[:10]]. *)
Fixpoint users_lines (shown : list UserModel) (text : string) : string :=
  match shown with
  | [] => text
  | user :: rest =>
      let name := or_else (first_name user) "Unknown" in
      let username := if truthy (username user)
                      then "@" +:+ str_opt (username user) else "No username" in
      users_lines rest
        (text +:+ "• " +:+ name +:+ " (" +:+ username +:+ ") - ID: "
         +:+ str_int (user_id user) +:+ nl)
  end.

Definition users_handler : handler :=
  check_admin (fun env update w =>
    let active := UserRepository.get_all_active (db w) in
    match active with
    | [] => (reply_text w "No users found.", Ret None)
    | _ =>
        let text := users_lines (take 10 active) ("Recent Users:" +:+ nl +:+ nl) in
        let text := text +:+ nl +:+ "Total: "
                    +:+ str_int (Z.of_nat (length active)) in
        (reply_text w text, Ret None)
    end).

Definition admin_menu_handler (cfg : Config) : handler :=
  check_admin (fun env update w =>
    if bool_decide (text update = Some "Dashboard") then
      let '(w, _) := dashboard_handler env update w in (w, Ret None)
    else if bool_decide (text update = Some "Users") then
      let '(w, _) := users_handler env update w in (w, Ret None)
    else if bool_decide (text update = Some "Broadcast") then
      let '(w, _) := broadcast_handler env update w in (w, Ret None)
    else if bool_decide (text update = Some "Logs") then
      (reply_text w "Message logging active. All conversations are stored.",
       Ret None)
    else if bool_decide (text update = Some "Add Admin") then
      (reply_text w ("To add admin: /addadmin <user_id>" +:+ nl
                     +:+ "To remove: /removeadmin <user_id>"),
       Ret None)
    else if bool_decide (text update = Some "Settings") then
      (reply_text w ("Rate Limit: " +:+ str_int (RATE_LIMIT_MESSAGES cfg)
                     +:+ " msgs/" +:+ str_int (RATE_LIMIT_WINDOW cfg) +:+ "s"
                     +:+ nl +:+ "Admins: "
                     +:+ str_int (AdminManager.get_admin_count (_admins w))),
       Ret None)
    else (w, Ret None)).

(** ** The two conversations registered in [main]

    A [ConversationHandler] keeps one state per user.  With no state it
    accepts only its entry point; in a state it accepts what that state
    lists and the fallback [/cancel].  An update it does not accept is not
    handled by it ([None]) and passes on to the handlers registered after
    it.  The value the handler returns is the next state: [END] drops the
    state, no value (or an exception) leaves it as it was. *)

Inductive event :=
  | TextMessage          (* a text message that is not a command *)
  | CancelCommand        (* /cancel *)
  | CallbackQuery.       (* a press on an inline button *)

(** [re.match(r'^reply_\d+$', data)], on ASCII digits. *)
Definition is_reply_data (data : string) : bool :=
  match split "_"%char data with
  | ["reply"; part] =>
      match int_of_str part with Ret _ => true | Raise _ => false end
  | _ => false
  end.

(** [re.match(r'^broadcast_(confirm|cancel)$', data)] *)
Definition is_broadcast_data (data : string) : bool :=
  bool_decide (data = "broadcast_confirm") || bool_decide (data = "broadcast_cancel").

(** What a conversation does with the value its handler returned. *)
Definition update_state (c : gmap Z conv_state) (me : Z)
    (r : res (option conv_state)) : gmap Z conv_state :=
  match r with
  | Ret (Some END) => delete me c
  | Ret (Some s) => <[me := s]> c
  | Ret None | Raise _ => c
  end.

(** [reply_conv]: entry point the [reply_<digits>] callback, state
    [WAITING_FOR_REPLY] for the next text. *)
Definition in_reply_conv (h : handler) (env : Env) (update : Update) (w : World)
    : World * res (option conv_state) :=
  let '(w, r) := h env update w in
  (set_reply_conv w (update_state (reply_conv w) (id (effective_user update)) r), r).

Definition reply_conv_handle (ev : event) (env : Env) (update : Update)
    (w : World) : option (World * res (option conv_state)) :=
  let me := id (effective_user update) in
  match reply_conv w !! me, ev with
  | None, CallbackQuery =>
      if is_reply_data (data update)
      then Some (in_reply_conv reply_callback env update w) else None
  | Some WAITING_FOR_REPLY, TextMessage =>
      Some (in_reply_conv handle_admin_reply env update w)
  | Some _, CancelCommand =>
      Some (in_reply_conv cancel_reply env update w)
  | _, _ => None
  end.

(** [broadcast_conv]: entry point the text [Broadcast], state
    [WAITING_FOR_BROADCAST] for the next text, state [CONFIRM_BROADCAST] for
    the confirm and cancel buttons. *)
Definition in_broadcast_conv (h : handler) (env : Env) (update : Update)
    (w : World) : World * res (option conv_state) :=
  let '(w, r) := h env update w in
  (set_broadcast_conv w
     (update_state (broadcast_conv w) (id (effective_user update)) r), r).

Definition broadcast_conv_handle (ev : event) (env : Env) (update : Update)
    (w : World) : option (World * res (option conv_state)) :=
  let me := id (effective_user update) in
  match broadcast_conv w !! me, ev with
  | None, TextMessage =>
      if bool_decide (text update = Some "Broadcast")
      then Some (in_broadcast_conv broadcast_handler env update w) else None
  | Some WAITING_FOR_BROADCAST, TextMessage =>
      Some (in_broadcast_conv receive_broadcast_message env update w)
  | Some CONFIRM_BROADCAST, CallbackQuery =>
      if is_broadcast_data (data update)
      then Some (in_broadcast_conv broadcast_confirm_callback env update w)
      else None
  | Some _, CancelCommand =>
      Some (in_broadcast_conv cancel_broadcast env update w)
  | _, _ => None
  end.

(** What a conversation made of the world, the world itself if it did not
    take the update. *)
Definition after (w : World) (r : option (World * res (option conv_state))) : World :=
  match r with
  | Some (w', _) => w'
  | None => w
  end.

(** ** Dispatch of a text message

    The handlers of [main] that can take a text that is not a command, in
    the order they are registered; the first that accepts the update runs,
    the others do not see it.  All chats are private chats. *)

(** [filters.Regex('^(Dashboard|Users|Logs|Add Admin|Settings)$')] *)
Definition is_admin_menu_text (t : option string) : bool :=
  bool_decide (t ∈ [Some "Dashboard"; Some "Users"; Some "Logs";
                    Some "Add Admin"; Some "Settings"]).

(** [filters.Regex('^(Send Message to Admin|Help|About)$')] *)
Definition is_user_menu_text (t : option string) : bool :=
  bool_decide (t ∈ [Some "Send Message to Admin"; Some "Help"; Some "About"]).

Definition on_text (cfg : Config) : handler :=
  fun env update w =>
    match reply_conv_handle TextMessage env update w with
    | Some r => r
    | None =>
        match broadcast_conv_handle TextMessage env update w with
        | Some r => r
        | None =>
            if is_admin_menu_text (text update)
            then admin_menu_handler cfg env update w
            else if is_user_menu_text (text update)
            then menu_handler env update w
            else handle_user_message cfg env update w
        end
    end.

(** The [SendMessage] effects of a trace. *)
Definition is_send (e : effect) : bool :=
  match e with SendMessage _ _ _ _ => true | _ => false end.

Definition sends (t : list effect) : list effect := List.filter is_send t.

(** The chats a trace tried to deliver to, in order. *)
Definition recipients (t : list effect) : list Z :=
  omap (fun e => match e with SendMessage c _ _ _ => Some c | _ => None end) t.

(** Deliveries that went through / that raised. *)
Definition delivered (e : effect) : bool :=
  match e with SendMessage _ _ _ None => true | _ => false end.

Definition refused (e : effect) : bool :=
  match e with SendMessage _ _ _ (Some _) => true | _ => false end.

Definition is_log_error (e : effect) : bool :=
  match e with LogError _ => true | _ => false end.

Definition is_insert (e : effect) : bool :=
  match e with InsertMessage _ => true | _ => false end.

(** [e] is one call [send_message(chat_id, text, reply_markup=kb)]. *)
Definition attempt (text : string) (kb : option markup) (e : effect)
    (chat_id : Z) : Prop :=
  exists raised, e = SendMessage chat_id text kb raised.

(** ** The other handlers of [main] *)

Definition set_admins (w : World) (s : gset Z) : World :=
  {| _admins := s; _user_messages := _user_messages w; db := db w;
     user_data := user_data w; reply_conv := reply_conv w;
     broadcast_conv := broadcast_conv w; trace := trace w |}.

Definition start_command : handler :=
  fun env update w =>
    let user := effective_user update in
    let w := create_or_update env w user in
    if AdminManager.is_admin (_admins w) (id user) then
      (reply_text_with w
         ("Welcome back, Admin " +:+ str_opt (tg_first_name user) +:+ "!" +:+ nl
          +:+ "Use the menu below to manage the bot.")
         get_admin_menu,
       Ret None)
    else
      (reply_text_with w
         ("Hello " +:+ str_opt (tg_first_name user) +:+ "!" +:+ nl +:+ nl
          +:+ "Welcome! You can send messages to our admin team here." +:+ nl
          +:+ "Just type your message and we'll get back to you soon!")
         get_user_menu,
       Ret None).

(** [/addadmin] and [/removeadmin].  [args] is [context.args]; [int] is
    Python's [int] on a string, which returns the number or raises
    [ValueError]. *)
Definition add_admin_command (int : string -> res Z) (args : list string)
    : handler :=
  check_admin (fun env update w =>
    match args with
    | [] => (reply_text w "Usage: /addadmin <user_id>", Ret None)
    | arg :: _ =>
        match int arg with
        | Ret new_admin_id =>
            let '(s, added) := AdminManager.add_admin (_admins w) new_admin_id in
            let w := set_admins w s in
            if added then
              (reply_text w ("User " +:+ str_int new_admin_id
                             +:+ " added as admin."), Ret None)
            else (reply_text w "User is already an admin.", Ret None)
        | Raise (ValueError _) => (reply_text w "Invalid user ID.", Ret None)
        | Raise e => (w, Raise e)
        end
    end).

Definition remove_admin_command (int : string -> res Z) (args : list string)
    : handler :=
  check_admin (fun env update w =>
    match args with
    | [] => (reply_text w "Usage: /removeadmin <user_id>", Ret None)
    | arg :: _ =>
        match int arg with
        | Ret admin_id =>
            let '(s, removed) := AdminManager.remove_admin (_admins w) admin_id in
            let w := set_admins w s in
            if removed then
              (reply_text w ("Admin " +:+ str_int admin_id +:+ " removed."),
               Ret None)
            else
              (reply_text w "Cannot remove. Either not an admin or last admin.",
               Ret None)
        | Raise (ValueError _) => (reply_text w "Invalid user ID.", Ret None)
        | Raise e => (w, Raise e)
        end
    end).

(** The "Block" button and the [unblock_<digits>] callback.  Their write to
    the users collection shows in [db]; the trace has no entry for it. *)
Definition block_callback : handler :=
  fun env update w =>
    let w := emit w Answer in
    if negb (AdminManager.is_admin (_admins w) (id (effective_user update)))
    then (w, Ret None)
    else
      match callback_target (data update) with
      | Raise e => (w, Raise e)
      | Ret uid =>
          let w := set_db w (fst (UserRepository.block_user (db w) uid)) in
          (reply_text w ("User " +:+ str_int uid +:+ " blocked."), Ret None)
      end.

Definition unblock_callback : handler :=
  fun env update w =>
    let w := emit w Answer in
    if negb (AdminManager.is_admin (_admins w) (id (effective_user update)))
    then (w, Ret None)
    else
      match callback_target (data update) with
      | Raise e => (w, Raise e)
      | Ret uid =>
          let w := set_db w (fst (UserRepository.unblock_user (db w) uid)) in
          (reply_text w ("User " +:+ str_int uid +:+ " unblocked."), Ret None)
      end.

(** [re.match('^' + name + r'_\d+$', data)], on ASCII digits. *)
Definition has_pattern (name : string) (data : string) : bool :=
  match split "_"%char data with
  | [head; part] =>
      bool_decide (head = name)
      && match int_of_str part with Ret _ => true | Raise _ => false end
  | _ => false
  end.

(** The callback data of the inline buttons of a keyboard. *)
Definition callback_data (kb : markup) : list string :=
  match kb with
  | InlineKeyboardMarkup rows => snd <$> concat rows
  | ReplyKeyboardMarkup _ => []
  end.

(** Requests to the rate limiter, each by an identity at a time, served in
    turn. *)
Definition serve (cfg : Config) (_user_messages : gmap Z (list Q))
    (requests : list (Z * Q)) : gmap Z (list Q) :=
  foldl (fun m '(uid, now) => fst (RateLimiter.check_rate_limit cfg now m uid))
        _user_messages requests.

(** ** Dispatch of [/cancel] and of a button press

    [main] registers [reply_conv] before [broadcast_conv], so an update that
    both would take goes to [reply_conv] and [broadcast_conv] does not see
    it.  The two conversations are the only handlers of [main] that take
    [/cancel], and the first ones that are asked about a button press;
    [None]: neither takes the update, which passes on to the handlers
    registered after them (for a press, the block, unblock and history
    callbacks, each by its pattern). *)
Definition conversations_handle (ev : event) (env : Env) (update : Update)
    (w : World) : option (World * res (option conv_state)) :=
  match reply_conv_handle ev env update w with
  | Some r => Some r
  | None => broadcast_conv_handle ev env update w
  end.

(** ** Scenarios used below *)

Module Scenario.

Definition alice : User :=
  {| id := 100; tg_username := Some "alice"; tg_first_name := Some "Alice";
     tg_last_name := None |}.

Definition admin1 : User :=
  {| id := 1; tg_username := Some "root"; tg_first_name := Some "Root";
     tg_last_name := None |}.

Definition doc (uid : Z) (blocked : bool) : UserModel :=
  {| user_id := uid; username := None; first_name := Some "U";
     last_name := None; is_blocked := blocked;
     created_at := Some "2024-01-01T00:00:00+00:00";
     last_active := Some "2024-01-01T00:00:00+00:00" |}.

(** Three admins, a store with the given users, nothing else yet. *)
Definition world (docs : list UserModel) : World :=
  {| _admins := {[1; 2; 3]}; _user_messages := ∅;
     db := {| users := docs; messages := [] |};
     user_data := ∅; reply_conv := ∅; broadcast_conv := ∅; trace := [] |}.

(** The platform refuses every delivery to the chats in [down]. *)
Definition env (down : list Z) : Env :=
  {| time_now := 0; iso_now := "2024-01-02T00:00:00+00:00";
     deliver := fun _ chat_id _ =>
       if existsb (Z.eqb chat_id) down then Some "Forbidden" else None |}.

Definition says (user : User) (body : string) : Update :=
  {| effective_user := user; text := Some body; data := "" |}.

Definition presses (user : User) (button : string) : Update :=
  {| effective_user := user; text := None; data := button |}.

(** [n] users with ids [first], [first + 1], ..., none blocked. *)
Fixpoint crowd (n : nat) (first : Z) : list UserModel :=
  match n with
  | O => []
  | S n' => doc first false :: crowd n' (first + 1)
  end.

(** Admin 1 has entered the broadcast flow and typed the body, and is asked
    to confirm; the trace starts afresh. *)
Definition confirming (docs : list UserModel) (body : string) : World :=
  let w := world docs in
  let w := after w (broadcast_conv_handle TextMessage (env []) (says admin1 "Broadcast") w) in
  let w := after w (broadcast_conv_handle TextMessage (env []) (says admin1 body) w) in
  set_trace w [].

(** Admin 1 has pressed "Reply" under a message of user [target]; the
    trace starts afresh. *)
Definition replying (docs : list UserModel) (target : Z) : World :=
  let w := world docs in
  let w := after w (reply_conv_handle CallbackQuery (env [])
                      (presses admin1 ("reply_" +:+ str_int target)) w) in
  set_trace w [].

(** Admin 1 is asked to confirm a broadcast and has then pressed "Reply"
    under a message of user [target]: both conversations wait for admin 1;
    the trace starts afresh. *)
Definition confirming_and_replying (docs : list UserModel) (body : string)
    (target : Z) : World :=
  let w := confirming docs body in
  let w := after w (conversations_handle CallbackQuery (env [])
                      (presses admin1 ("reply_" +:+ str_int target)) w) in
  set_trace w [].

End Scenario.

(** * Properties *)

Local Close Scope string_scope.

(** ** Python built-ins *)

Lemma Qgtb_true (a b : Q) : Qgtb a b = true <-> (b < a)%Q.
Proof.
  unfold Qgtb. rewrite negb_true_iff. split.
  - intros E. apply Qnot_le_lt. intros H. apply Qle_bool_iff in H. congruence.
  - intros H. destruct (Qle_bool a b) eqn:E; [|done].
    apply Qle_bool_iff in E. lra.
Qed.

Lemma Qgtb_false (a b : Q) : Qgtb a b = false <-> (a <= b)%Q.
Proof.
  unfold Qgtb. rewrite negb_false_iff. apply Qle_bool_iff.
Qed.

(** On a float that is not negative, [int] is the floor. *)
Lemma py_int_floor (x : Q) : (0 <= x)%Q -> py_int x = Qfloor x.
Proof.
  destruct x as [n d]. unfold Qle, py_int, Qfloor. simpl. intros H.
  apply Z.quot_div_nonneg; lia.
Qed.

Lemma Qfloor_nonneg (x : Q) : (0 <= x)%Q -> 0 <= Qfloor x.
Proof.
  intros H. change 0 with (Qfloor (inject_Z 0)). by apply Qfloor_resp_le.
Qed.

Lemma min_from_In (l : list Q) (best : Q) : In (min_from best l) (best :: l).
Proof.
  revert best. induction l as [|t l IH]; intros best; simpl.
  - by left.
  - destruct (IH (if Qgtb best t then t else best)) as [E|E].
    + destruct (Qgtb best t); rewrite <- E; auto.
    + auto.
Qed.

Lemma min_from_le_best (l : list Q) (best : Q) : (min_from best l <= best)%Q.
Proof.
  revert best. induction l as [|t l IH]; intros best; simpl.
  - lra.
  - specialize (IH (if Qgtb best t then t else best)).
    destruct (Qgtb best t) eqn:E; [apply Qgtb_true in E|]; lra.
Qed.

Lemma min_from_least (l : list Q) (best t : Q) :
  In t (best :: l) -> (min_from best l <= t)%Q.
Proof.
  revert best. induction l as [|u l IH]; intros best; simpl.
  - intros [->|[]]. lra.
  - intros [->|[->|H]].
    + pose proof (min_from_le_best l (if Qgtb t u then u else t)) as M.
      destruct (Qgtb t u) eqn:E; [apply Qgtb_true in E|]; lra.
    + pose proof (min_from_le_best l (if Qgtb best t then t else best)) as M.
      destruct (Qgtb best t) eqn:E; [|apply Qgtb_false in E]; lra.
    + apply IH. by right.
Qed.

(** [min] of a list that is not empty returns a least element of it. *)
Lemma py_min_spec (l : list Q) :
  l <> [] ->
  exists m, py_min l = Ret m /\ In m l /\ forall t, In t l -> (m <= t)%Q.
Proof.
  destruct l as [|t l]; [done|]. intros _. exists (min_from t l).
  split; [done|]. split; [apply min_from_In|]. intros u. apply min_from_least.
Qed.

(** The comprehension's filter keeps what the window condition says. *)
Lemma prune_filter (ws : Q) (l : list Q) :
  List.filter (fun t => Qgtb t ws) l = filter (fun t => ~ (t <= ws)%Q) l.
Proof.
  induction l as [|t l IH]; [done|]. simpl. rewrite filter_cons.
  destruct (Qgtb t ws) eqn:E.
  - apply Qgtb_true in E. rewrite decide_True by lra. by rewrite IH.
  - apply Qgtb_false in E. rewrite decide_False by tauto. done.
Qed.

(** ** RateLimiter *)

Section RateLimiterFacts.
Import RateLimiter.
Variable cfg : Config.
Variables (now : Q) (um : gmap Z (list Q)) (uid : Z).

Let W : Q := inject_Z (RATE_LIMIT_WINDOW cfg).
Let kept : list Q := filter (fun t => ~ (t <= now - W)%Q) (window um uid).

(** Whatever survives the pruning is younger than the window. *)
Lemma kept_young (t : Q) : In t kept -> (0 < t + W - now)%Q.
Proof.
  unfold kept. rewrite <- list_elem_of_In, list_elem_of_filter.
  intros [H _]. lra.
Qed.

(** The full window: the call denies, and says how long to wait. *)
Lemma check_rate_limit_denied (oldest : Q) :
  RATE_LIMIT_MESSAGES cfg <= Z.of_nat (length kept) ->
  py_min kept = Ret oldest ->
  check_rate_limit cfg now um uid =
    (<[uid := kept]> um,
     Ret (false, Z.max 0 (Qfloor (oldest + W - now) + 1))).
Proof.
  intros Hfull Hmin. unfold check_rate_limit.
  rewrite prune_filter. fold W. fold kept.
  destruct (Z.geb_spec (Z.of_nat (length kept)) (RATE_LIMIT_MESSAGES cfg)); [|lia].
  rewrite Hmin. rewrite py_int_floor; [done|].
  destruct kept as [|t l] eqn:E; [done|].
  injection Hmin as <-. apply Qlt_le_weak, kept_young. rewrite E.
  apply min_from_In.
Qed.

(** Room in the window: the call records [now] and admits. *)
Lemma check_rate_limit_admitted :
  Z.of_nat (length kept) < RATE_LIMIT_MESSAGES cfg ->
  check_rate_limit cfg now um uid =
    (<[uid := kept ++ [now]]> um, Ret (true, 0)).
Proof.
  intros Hroom. unfold check_rate_limit.
  rewrite prune_filter. fold W. fold kept.
  destruct (Z.geb_spec (Z.of_nat (length kept)) (RATE_LIMIT_MESSAGES cfg)); [lia|].
  by rewrite insert_insert_eq.
Qed.

(** A limit that is not positive and an empty window: [min([])] raises. *)
Lemma check_rate_limit_raises :
  RATE_LIMIT_MESSAGES cfg <= 0 -> kept = [] ->
  exists e, check_rate_limit cfg now um uid = (<[uid := []]> um, Raise e).
Proof.
  intros Hcfg Hkept. unfold check_rate_limit.
  rewrite prune_filter. fold W. fold kept. rewrite Hkept. simpl.
  change (Z.of_nat 0) with 0.
  destruct (Z.geb_spec 0 (RATE_LIMIT_MESSAGES cfg)); [|lia].
  eexists. reflexivity.
Qed.

End RateLimiterFacts.

(** A call reads and writes the caller's window only. *)
Lemma check_rate_limit_local (cfg : Config) (now : Q) (um : gmap Z (list Q))
    (uid : Z) :
  RateLimiter.check_rate_limit cfg now um uid =
    (<[uid := fst (RateLimiter.on_window cfg now (RateLimiter.window um uid))]> um,
     snd (RateLimiter.on_window cfg now (RateLimiter.window um uid))).
Proof.
  unfold RateLimiter.on_window, RateLimiter.check_rate_limit.
  assert (RateLimiter.window {[0 := RateLimiter.window um uid]} 0
          = RateLimiter.window um uid) as ->.
  { unfold RateLimiter.window at 1. by rewrite lookup_singleton_eq. }
  set (kept := List.filter _ _).
  destruct (Z.of_nat (length kept) >=? RATE_LIMIT_MESSAGES cfg).
  - destruct (py_min kept); simpl;
      unfold RateLimiter.window; by rewrite lookup_insert_eq.
  - simpl. unfold RateLimiter.window.
    by rewrite !insert_insert_eq, lookup_insert_eq.
Qed.

Lemma calls_results (cfg : Config) (times : list Q) :
  forall (um : gmap Z (list Q)) (uid : Z),
    snd (RateLimiter.calls cfg um uid times)
    = RateLimiter.results cfg (RateLimiter.window um uid) times.
Proof.
  induction times as [|now times IH]; intros um uid; [done|].
  cbn [RateLimiter.calls RateLimiter.results].
  rewrite check_rate_limit_local.
  destruct (RateLimiter.on_window cfg now (RateLimiter.window um uid)) as [w' r].
  cbn [fst snd]. specialize (IH (<[uid := w']> um) uid).
  unfold RateLimiter.window at 1 in IH. rewrite lookup_insert_eq in IH.
  destruct (RateLimiter.calls cfg (<[uid := w']> um) uid times) as [m' rs].
  cbn [fst snd default] in *. by rewrite IH.
Qed.

(** C1: with a positive limit, [check_rate_limit] called at [now] first
    drops from the caller's window every timestamp [t <= now - window];
    if at least [max_events] timestamps remain it appends nothing and
    denies with [max 0 (floor (oldest + window - now) + 1)], [oldest] a
    least remaining timestamp; otherwise it appends [now] and admits.  With
    5 events per 60 seconds, five calls at 0 are admitted, the sixth at 0 is
    denied, and a call at 61 is admitted. *)
Theorem check_rate_limit_sliding_window :
  (forall (cfg : Config) (now : Q) (um : gmap Z (list Q)) (uid : Z),
     0 < RATE_LIMIT_MESSAGES cfg ->
     let W := inject_Z (RATE_LIMIT_WINDOW cfg) in
     let kept := filter (fun t => ~ (t <= now - W)%Q) (RateLimiter.window um uid) in
     if decide (RATE_LIMIT_MESSAGES cfg <= Z.of_nat (length kept)) then
       exists oldest,
         In oldest kept /\ (forall t, In t kept -> (oldest <= t)%Q) /\
         RateLimiter.check_rate_limit cfg now um uid =
           (<[uid := kept]> um,
            Ret (false, Z.max 0 (Qfloor (oldest + W - now) + 1)))
     else
       RateLimiter.check_rate_limit cfg now um uid =
         (<[uid := kept ++ [now]]> um, Ret (true, 0)))
  /\
  (forall (um : gmap Z (list Q)) (uid : Z),
     RateLimiter.window um uid = [] ->
     snd (RateLimiter.calls default_config um uid
            [0%Q; 0%Q; 0%Q; 0%Q; 0%Q; 0%Q; inject_Z 61])
     = [Ret (true, 0); Ret (true, 0); Ret (true, 0); Ret (true, 0);
        Ret (true, 0); Ret (false, 61); Ret (true, 0)]).
Proof.
  split.
  - intros cfg now um uid Hpos W kept. case_decide as Hfull.
    + destruct (py_min_spec kept) as (oldest & Hmin & Hin & Hleast).
      { intros E. assert (length kept = 0%nat) as L by (by rewrite E). lia. }
      exists oldest. split; [done|]. split; [done|].
      by apply check_rate_limit_denied.
    + apply check_rate_limit_admitted. unfold kept, W in Hfull. lia.
  - intros um uid Hw. rewrite calls_results, Hw. by vm_compute.
Qed.

Lemma check_rate_limit_sliding_window_witness :
  let um : gmap Z (list Q) := {[7 := [0%Q; 1%Q; 2%Q; 3%Q; 4%Q; 5%Q]]} in
  let kept := [1%Q; 2%Q; 3%Q; 4%Q; 5%Q] in
  exists oldest,
    In oldest kept /\ (forall t, In t kept -> (oldest <= t)%Q) /\
    RateLimiter.check_rate_limit default_config (inject_Z 60) um 7 =
      (<[7 := kept]> um,
       Ret (false, Z.max 0 (Qfloor (oldest + inject_Z 60 - inject_Z 60) + 1))).
Proof.
  exact (proj1 check_rate_limit_sliding_window default_config (inject_Z 60)
           {[7 := [0%Q; 1%Q; 2%Q; 3%Q; 4%Q; 5%Q]]} 7 eq_refl).
Defined.

(** C6: whenever [check_rate_limit] denies, the number of seconds it tells
    the caller to wait is strictly positive. *)
Theorem check_rate_limit_denied_wait_positive (cfg : Config) (now : Q)
    (um um' : gmap Z (list Q)) (uid : Z) (retry_after : Z) :
  RateLimiter.check_rate_limit cfg now um uid = (um', Ret (false, retry_after)) ->
  0 < retry_after.
Proof.
  unfold RateLimiter.check_rate_limit. rewrite prune_filter.
  set (W := inject_Z (RATE_LIMIT_WINDOW cfg)).
  set (kept := filter _ _).
  destruct (Z.of_nat (length kept) >=? RATE_LIMIT_MESSAGES cfg); [|done].
  destruct kept as [|t l] eqn:E; [done|]. simpl.
  intros [= _ <-].
  assert (0 < min_from t l + W - now)%Q as Hyoung.
  { apply kept_young with (um := um) (uid := uid). fold W. fold kept.
    rewrite E. apply min_from_In. }
  rewrite py_int_floor by lra.
  pose proof (Qfloor_nonneg (min_from t l + W - now) ltac:(lra)). lia.
Qed.

Lemma check_rate_limit_denied_wait_positive_witness : 0 < 31.
Proof.
  apply (check_rate_limit_denied_wait_positive default_config (inject_Z 30)
           {[7 := [0%Q; 1%Q; 2%Q; 3%Q; 4%Q]]}
           {[7 := [0%Q; 1%Q; 2%Q; 3%Q; 4%Q]]} 7 31).
  vm_compute. reflexivity.
Defined.

(** ** AdminManager *)

Section AdminManagerFacts.
Import AdminManager.
Implicit Types (s : gset Z) (u : Z).

(** A set that holds [u] has more than one member unless it is [{u}]. *)
Lemma sole_member s u : u ∈ s -> (Z.of_nat (size s) >? 1) = false <-> s = {[u]}.
Proof.
  intros Hin. rewrite Z.gtb_ltb, Z.ltb_ge. split.
  - intros Hsz. assert (size s = 1%nat) as H1.
    { assert (size s <> 0%nat); [|lia].
      intros H0. apply size_empty_inv in H0. set_solver. }
    apply size_1_elem_of in H1 as [x Hx]. set_solver.
  - intros ->. rewrite size_singleton. lia.
Qed.

Lemma remove_admin_refused s u :
  u ∉ s \/ s = {[u]} -> remove_admin s u = (s, false).
Proof.
  unfold remove_admin. intros [Hout| ->].
  - by rewrite bool_decide_eq_false_2.
  - rewrite size_singleton. by rewrite andb_false_r.
Qed.

Lemma remove_admin_done s u :
  u ∈ s -> s <> {[u]} -> remove_admin s u = (s ∖ {[u]}, true).
Proof.
  unfold remove_admin. intros Hin Hne.
  rewrite bool_decide_eq_true_2 by done.
  destruct (Z.of_nat (size s) >? 1) eqn:E; [done|].
  by apply (sole_member s u Hin) in E.
Qed.

Lemma step_nonempty s (o : op) : s <> ∅ -> step s o <> ∅.
Proof.
  intros Hne. destruct o as [u|u]; simpl.
  - unfold add_admin. destruct (negb _); simpl; set_solver.
  - unfold remove_admin.
    destruct (bool_decide (u ∈ s)) eqn:Hin; simpl; [|done].
    apply bool_decide_eq_true in Hin.
    destruct (Z.of_nat (size s) >? 1) eqn:E; simpl; [|done].
    intros Hempty.
    assert (s = {[u]}) as ->.
    { apply set_eq. intros x. destruct (decide (x = u)); set_solver. }
    rewrite size_singleton in E. done.
Qed.

Lemma run_nonempty (ops : list op) : forall s, s <> ∅ -> run s ops <> ∅.
Proof.
  unfold run. induction ops as [|o ops IH]; intros s Hne; simpl; [done|].
  by apply IH, step_nonempty.
Qed.

End AdminManagerFacts.

(** C2: [remove_admin] returns false and leaves the set as it is when the
    identity is no admin or is the only admin, and returns true and removes
    it otherwise; so no sequence of [add_admin]/[remove_admin] empties a set
    of admins that was not empty.  With one admin [a], removing [a] is
    refused; after adding another admin [b], removing [a] succeeds. *)
Theorem remove_admin_keeps_an_admin :
  (forall (s : gset Z) (u : Z),
     u ∉ s \/ s = {[u]} -> AdminManager.remove_admin s u = (s, false))
  /\ (forall (s : gset Z) (u : Z),
        u ∈ s -> s <> {[u]} ->
        AdminManager.remove_admin s u = (s ∖ {[u]}, true))
  /\ (forall (s : gset Z) (ops : list AdminManager.op),
        s <> ∅ -> AdminManager.run s ops <> ∅)
  /\ (forall a b : Z,
        a <> b ->
        AdminManager.remove_admin {[a]} a = ({[a]}, false)
        /\ AdminManager.add_admin {[a]} b = ({[a; b]}, true)
        /\ AdminManager.remove_admin {[a; b]} a = ({[b]}, true)).
Proof.
  split; [exact remove_admin_refused|].
  split; [exact remove_admin_done|].
  split; [intros s ops; apply run_nonempty|].
  intros a b Hab. split; [apply remove_admin_refused; by right|].
  split.
  - unfold AdminManager.add_admin.
    rewrite bool_decide_eq_false_2 by set_solver. done.
  - rewrite remove_admin_done.
    + f_equal. apply set_eq. intros x.
      rewrite elem_of_difference, elem_of_union, !elem_of_singleton.
      split; [intros [[?|?] ?]; congruence|].
      intros ->. split; [by right|congruence].
    + apply elem_of_union_l. by apply elem_of_singleton.
    + intros E. apply Hab. symmetry. apply (elem_of_singleton (C := gset Z)).
      rewrite <- E. apply elem_of_union_r. by apply elem_of_singleton.
Qed.

Lemma remove_admin_keeps_an_admin_witness :
  AdminManager.run {[1]}
    [AdminManager.Remove 1; AdminManager.Add 2; AdminManager.Remove 1;
     AdminManager.Remove 2] <> ∅
  /\ AdminManager.remove_admin {[1; 2]} 1 = ({[2]}, true).
Proof.
  split.
  - apply (proj1 (proj2 (proj2 remove_admin_keeps_an_admin))).
    intros E. by apply (f_equal size) in E.
  - apply (proj2 (proj2 (proj2 (proj2 (proj2 remove_admin_keeps_an_admin))
                           1 2 ltac:(lia)))).
Defined.

(** C9: adding an identity that is not yet an admin twice in succession
    returns true, then false; the second call leaves the set as the first
    left it, and that set holds the identity exactly once (one member more
    than before; a single member when the set was empty). *)
Theorem add_admin_twice (s : gset Z) (u : Z) :
  u ∉ s ->
  let '(s1, r1) := AdminManager.add_admin s u in
  let '(s2, r2) := AdminManager.add_admin s1 u in
  r1 = true /\ r2 = false /\ s2 = s1
  /\ count_occ Z.eq_dec (elements s2) u = 1%nat
  /\ size s2 = S (size s)
  /\ (s = ∅ -> size s2 = 1%nat).
Proof.
  intros Hout. unfold AdminManager.add_admin.
  rewrite (bool_decide_eq_false_2 (u ∈ s)) by done. simpl.
  rewrite bool_decide_eq_true_2 by set_solver. simpl.
  assert (size (s ∪ {[u]}) = S (size s)) as Hsz.
  { rewrite size_union by set_solver. rewrite size_singleton. lia. }
  repeat split; try done.
  - apply NoDup_count_occ'.
    + apply NoDup_ListNoDup, NoDup_elements.
    + apply list_elem_of_In, elem_of_elements. set_solver.
  - intros ->. rewrite Hsz. by rewrite size_empty.
Qed.

Lemma add_admin_twice_witness :
  let '(s1, r1) := AdminManager.add_admin ∅ 42 in
  let '(s2, r2) := AdminManager.add_admin s1 42 in
  r1 = true /\ r2 = false /\ s2 = s1
  /\ count_occ Z.eq_dec (elements s2) 42 = 1%nat
  /\ size s2 = S (size (∅ : gset Z))
  /\ ((∅ : gset Z) = ∅ -> size s2 = 1%nat).
Proof.
  apply (add_admin_twice ∅ 42). set_solver.
Defined.

(** ** The two delivery loops *)

Lemma set_trace_emit (w : World) (e : effect) (t : list effect) :
  set_trace (emit w e) (trace (emit w e) ++ t) = set_trace w (trace w ++ e :: t).
Proof. unfold emit, set_trace. simpl. by rewrite <- app_assoc. Qed.

(** The fan-out tries every admin once, in order, whatever the earlier
    tries did; it counts the deliveries and logs one line per failure. *)
Lemma fan_out_spec (env : Env) (uid : Z) (msg : string) (admins : list Z) :
  forall (w : World) (n : Z),
  exists fan,
    fan_out env w uid msg admins n =
      (set_trace w (trace w ++ fan),
       n + Z.of_nat (length (List.filter delivered fan)))
    /\ Forall2 (attempt msg (Some (get_reply_keyboard uid))) (sends fan) admins
    /\ Forall (fun e => is_send e = true \/ is_log_error e = true) fan
    /\ length (List.filter is_log_error fan) = length (List.filter refused fan).
Proof.
  induction admins as [|a admins IH]; intros w n.
  - exists []. simpl. rewrite app_nil_r, Z.add_0_r.
    split; [by destruct w|]. repeat split; constructor.
  - cbn [fan_out]. unfold send_message.
    destruct (deliver env (trace w) a msg) as [e|] eqn:D.
    + set (s := SendMessage a msg _ (Some e)).
      set (l := LogError _).
      destruct (IH (emit (emit w s) l) n) as (fan & -> & Hatt & Hkind & Hlog).
      exists (s :: l :: fan). rewrite !set_trace_emit.
      split; [done|]. split; [|split].
      * constructor; [by exists (Some e)|done].
      * constructor; [by left|]. constructor; [by right|done].
      * simpl. by rewrite Hlog.
    + set (s := SendMessage a msg _ None).
      destruct (IH (emit w s) (n + 1)) as (fan & -> & Hatt & Hkind & Hlog).
      exists (s :: fan). rewrite set_trace_emit.
      split; [|split; [|split]].
      * f_equal. simpl. lia.
      * constructor; [by exists None|done].
      * constructor; [by left|done].
      * done.
Qed.

(** The broadcast tries every user of the list once, in order, and tallies
    each try as sent or failed. *)
Lemma broadcast_loop_spec (env : Env) (msg : string) (targets : list UserModel) :
  forall (w : World) (sent failed : Z),
  exists tries,
    broadcast_loop env w msg targets sent failed =
      (set_trace w (trace w ++ tries),
       (sent + Z.of_nat (length (List.filter delivered tries)),
        failed + Z.of_nat (length (List.filter refused tries))))
    /\ Forall2 (attempt msg None) tries (user_id <$> targets)
    /\ (length (List.filter delivered tries)
        + length (List.filter refused tries) = length targets)%nat.
Proof.
  induction targets as [|u targets IH]; intros w sent failed.
  - exists []. simpl. rewrite app_nil_r, !Z.add_0_r.
    split; [by destruct w|]. split; [constructor|done].
  - cbn [broadcast_loop]. unfold send_message.
    destruct (deliver env (trace w) (user_id u) msg) as [e|] eqn:D.
    + set (s := SendMessage (user_id u) msg None (Some e)).
      destruct (IH (emit w s) sent (failed + 1)) as (tries & -> & Hatt & Hlen).
      exists (s :: tries). rewrite set_trace_emit.
      split; [|split].
      * f_equal. f_equal. simpl. lia.
      * rewrite fmap_cons. constructor; [by exists (Some e)|done].
      * simpl. lia.
    + set (s := SendMessage (user_id u) msg None None).
      destruct (IH (emit w s) (sent + 1) failed) as (tries & -> & Hatt & Hlen).
      exists (s :: tries). rewrite set_trace_emit.
      split; [|split].
      * f_equal. f_equal. simpl. lia.
      * rewrite fmap_cons. constructor; [by exists None|done].
      * simpl. lia.
Qed.

(** ** Relay of a user message *)

Lemma existsb_filter {A} (f : A -> bool) (l : list A) :
  (Z.of_nat (length (List.filter f l)) >? 0) = existsb f l.
Proof.
  induction l as [|x l IH]; [done|]. simpl. destruct (f x); simpl; [|done].
  rewrite Z.gtb_ltb. apply Z.ltb_lt. lia.
Qed.

(** No try of a trace went through exactly when every try was refused. *)
Lemma none_delivered_all_refused (t : list effect) :
  existsb delivered t = negb (forallb refused (sends t)).
Proof.
  induction t as [|e t IH]; [done|].
  destruct e as [c x k [r|]| | | | | |]; simpl; done.
Qed.

Lemma create_or_update_messages (now : string) (d : Database) (uid : Z)
    (un fn ln : option string) :
  messages (fst (UserRepository.create_or_update now d uid un fn ln)) = messages d.
Proof. done. Qed.

(** The text [message.text or "[Media message]"] stands for. *)
Lemma or_else_media (t : option string) :
  or_else t "[Media message]"
  = match t with
    | Some s => if bool_decide (s = ""%string) then "[Media message]"%string else s
    | None => "[Media message]"%string
    end.
Proof. destruct t as [s|]; [|done]. unfold or_else. simpl. by case_bool_decide. Qed.

(** C4: a message from a sender who is no admin, is not blocked and is
    admitted by the rate limiter is stored, under the sender's id, with its
    text (or "[Media message]" when it has none), no admin id and direction
    [user_to_admin], before the first delivery is tried; every admin is then
    tried once, whatever happened to the tries before; the sender is told of
    success if some try went through and of failure if none did; the stored
    message stays in either case. *)
Theorem relay_stores_then_fans_out (cfg : Config) (env : Env) (update : Update)
    (w : World) (wait : Z) :
  let user := effective_user update in
  let body :=
    match text update with
    | Some s => if bool_decide (s = ""%string) then "[Media message]"%string else s
    | None => "[Media message]"%string
    end in
  let doc :=
    {| msg_user_id := id user; admin_id := None; message_text := Some body;
       direction := "user_to_admin"; msg_created_at := Some (iso_now env) |} in
  AdminManager.is_admin (_admins w) (id user) = false ->
  UserRepository.is_blocked (db w) (id user) = false ->
  snd (RateLimiter.check_rate_limit cfg (time_now env) (_user_messages w) (id user))
    = Ret (true, wait) ->
  exists (w' : World) (fan : list effect),
    handle_user_message cfg env update w = (w', Ret None)
    /\ trace w' =
         trace w ++ [UpsertUser (id user); InsertMessage doc] ++ fan ++
         [ReplyText
            (if existsb delivered fan
             then "Your message has been sent to admin. Please wait for a response."
             else "Sorry, couldn't deliver your message. Please try again later.")%string
            None]
    /\ existsb delivered fan = negb (forallb refused (sends fan))
    /\ messages (db w') = messages (db w) ++ [doc]
    /\ direction doc = "user_to_admin"%string
    /\ Forall2 (attempt (format_message_for_admin user body)
                        (Some (get_reply_keyboard (id user))))
               (sends fan) (elements (_admins w))
    /\ Forall (fun e => is_send e = true \/ is_log_error e = true) fan
    /\ length (List.filter is_log_error fan) = length (List.filter refused fan).
Proof.
  intros user body doc Hadmin Hblocked Hrate.
  unfold handle_user_message. fold user. rewrite Hadmin, Hblocked.
  destruct (RateLimiter.check_rate_limit _ _ _ _) as [m r].
  simpl in Hrate. subst r. cbn [negb]. rewrite or_else_media. fold body.
  set (w1 := save_message _ _ _ _ _ _).
  destruct (fan_out_spec env (id user) (format_message_for_admin user body)
              (AdminManager.get_admins (_admins w1)) w1 0)
    as (fan & -> & Hatt & Hkind & Hlog).
  rewrite Z.add_0_l, existsb_filter.
  exists (reply_text (set_trace w1 (trace w1 ++ fan))
            (if existsb delivered fan
             then "Your message has been sent to admin. Please wait for a response."
             else "Sorry, couldn't deliver your message. Please try again later.")%string),
         fan.
  split; [by destruct (existsb delivered fan)|].
  split; [simpl; by rewrite <- !app_assoc|].
  split; [apply none_delivered_all_refused|].
  repeat split; done.
Qed.

Lemma relay_stores_then_fans_out_witness :
  exists (w' : World) (fan : list effect),
    handle_user_message default_config (Scenario.env [2])
      (Scenario.says Scenario.alice "hello") (Scenario.world []) = (w', Ret None)
    /\ existsb delivered fan = negb (forallb refused (sends fan))
    /\ messages (db w')
       = [{| msg_user_id := 100; admin_id := None; message_text := Some "hello"%string;
             direction := "user_to_admin";
             msg_created_at := Some "2024-01-02T00:00:00+00:00"%string |}]
    /\ length (List.filter is_log_error fan) = length (List.filter refused fan).
Proof.
  destruct (relay_stores_then_fans_out default_config (Scenario.env [2])
              (Scenario.says Scenario.alice "hello") (Scenario.world []) 0
              ltac:(vm_compute; reflexivity) ltac:(vm_compute; reflexivity)
              ltac:(vm_compute; reflexivity))
    as (w' & fan & Hrun & Htrace & Hack & Hmsgs & Hdir & Hatt & Hkind & Hlog).
  exists w', fan. split; [exact Hrun|]. split; [exact Hack|].
  split; [exact Hmsgs|exact Hlog].
Defined.

(** The spec's example: three admins, deliveries to admin 2 fail; the sender
    is told of success, one failure is logged, the message is stored. *)
Example relay_with_one_admin_down :
  let w' := fst (handle_user_message default_config (Scenario.env [2])
                   (Scenario.says Scenario.alice "hello") (Scenario.world [])) in
  recipients (trace w') = elements ({[1; 2; 3]} : gset Z)
  /\ List.filter is_log_error (trace w')
     = [LogError "Failed to send to admin 2: Forbidden"]
  /\ last (trace w')
     = Some (ReplyText
               "Your message has been sent to admin. Please wait for a response."
               None)
  /\ length (messages (db w')) = 1%nat.
Proof. vm_compute. repeat split; reflexivity. Qed.

(** C5: a message from a blocked sender who is no admin gets the blocked
    notice and nothing else: the rate limiter's windows, the users, the
    stored messages, the admins and the conversation data stay as they
    were, and no delivery to an admin is tried. *)
Theorem blocked_sender_short_circuit (cfg : Config) (env : Env) (update : Update)
    (w : World) :
  let user := effective_user update in
  AdminManager.is_admin (_admins w) (id user) = false ->
  UserRepository.is_blocked (db w) (id user) = true ->
  exists w' : World,
    handle_user_message cfg env update w = (w', Ret None)
    /\ trace w' = trace w ++
         [ReplyText "You have been blocked from using this bot." None]
    /\ _user_messages w' = _user_messages w
    /\ db w' = db w
    /\ _admins w' = _admins w
    /\ user_data w' = user_data w
    /\ reply_conv w' = reply_conv w
    /\ broadcast_conv w' = broadcast_conv w.
Proof.
  intros user Hadmin Hblocked. unfold handle_user_message. fold user.
  rewrite Hadmin, Hblocked. eexists. split; [reflexivity|]. by repeat split.
Qed.

Lemma blocked_sender_short_circuit_witness :
  exists w' : World,
    handle_user_message default_config (Scenario.env [])
      (Scenario.says Scenario.alice "hello")
      (Scenario.world [Scenario.doc 100 true]) = (w', Ret None)
    /\ trace w' = [ReplyText "You have been blocked from using this bot." None]
    /\ _user_messages w' = ∅
    /\ messages (db w') = [].
Proof.
  destruct (blocked_sender_short_circuit default_config (Scenario.env [])
              (Scenario.says Scenario.alice "hello")
              (Scenario.world [Scenario.doc 100 true])
              ltac:(vm_compute; reflexivity) ltac:(vm_compute; reflexivity))
    as (w' & Hrun & Htrace & Hrate & Hdb & _).
  exists w'. split; [exact Hrun|]. split; [exact Htrace|].
  split; [exact Hrate|]. by rewrite Hdb.
Defined.

(** ** Broadcast *)

(** The number [broadcast_handler] shows an admin is the number of all user
    documents. *)
Lemma broadcast_handler_shows_all (env : Env) (update : Update) (w : World) :
  AdminManager.is_admin (_admins w) (id (effective_user update)) = true ->
  broadcast_handler env update w =
    (reply_text w
       ("Broadcast to " +:+ str_int (Z.of_nat (length (users (db w))))
        +:+ " users." +:+ nl +:+ "Type your message or /cancel:"),
     Ret (Some WAITING_FOR_BROADCAST)).
Proof.
  intros Hadmin. unfold broadcast_handler, check_admin. by rewrite Hadmin.
Qed.

(** C7 (the code at a store with one blocked user): the entry message of
    the broadcast flow says 2 users, while 1 user is not blocked and the
    broadcast that follows tries 1 delivery. *)
Theorem broadcast_entry_counts_blocked_users :
  let docs := [Scenario.doc 100 false; Scenario.doc 101 true] in
  let w := Scenario.world docs in
  let w1 := Scenario.confirming docs "news" in
  broadcast_conv_handle TextMessage (Scenario.env [])
    (Scenario.says Scenario.admin1 "Broadcast") w
    = Some (set_broadcast_conv
              (reply_text w ("Broadcast to 2 users." +:+ nl
                             +:+ "Type your message or /cancel:"))
              {[1 := WAITING_FOR_BROADCAST]},
            Ret (Some WAITING_FOR_BROADCAST))
  /\ length (List.filter (fun d => negb (is_blocked d)) docs) = 1%nat
  /\ recipients
       (trace (after w1 (broadcast_conv_handle CallbackQuery (Scenario.env [])
                           (Scenario.presses Scenario.admin1 "broadcast_confirm")
                           w1)))
     = [100].
Proof. vm_compute. repeat split; reflexivity. Qed.

Lemma get_user_data_set (w : World) (me : Z) (d : UserData) :
  get_user_data (set_user_data w me d) me = d.
Proof. unfold get_user_data, set_user_data. simpl. by rewrite lookup_insert_eq. Qed.

(** A confirmed broadcast, at the handler. *)
Lemma broadcast_confirm_callback_spec (env : Env) (update : Update) (w : World)
    (b : string) :
  let me := id (effective_user update) in
  let active := List.filter (fun d => negb (is_blocked d)) (users (db w)) in
  let snapshot := take 1000 active in
  data update = "broadcast_confirm"%string ->
  broadcast_message (get_user_data w me) = Some b ->
  b <> ""%string ->
  exists (w' : World) (tries : list effect),
    let sent := Z.of_nat (length (List.filter delivered tries)) in
    let failed := Z.of_nat (length (List.filter refused tries)) in
    broadcast_confirm_callback env update w = (w', Ret (Some END))
    /\ trace w' =
         trace w ++
         [Answer;
          EditText ("Sending to " +:+ str_int (Z.of_nat (length snapshot))
                    +:+ " users...")] ++
         tries ++
         [ReplyText ("Broadcast Complete!" +:+ nl +:+ "Sent: " +:+ str_int sent
                     +:+ nl +:+ "Failed: " +:+ str_int failed) None]
    /\ Forall2 (attempt ("Announcement:" +:+ nl +:+ nl +:+ b) None)
               tries (user_id <$> snapshot)
    /\ sent + failed = Z.of_nat (length snapshot)
    /\ ((length active <= 1000)%nat -> snapshot = active)
    /\ broadcast_message (get_user_data w' me) = None
    /\ db w' = db w.
Proof.
  intros me active snapshot Hdata Hbody Hne.
  unfold broadcast_confirm_callback. fold me. rewrite Hdata.
  rewrite bool_decide_eq_false_2 by done.
  change (get_user_data (emit w Answer) me) with (get_user_data w me).
  rewrite Hbody.
  assert (truthy (Some b) = true) as ->.
  { simpl. by rewrite bool_decide_eq_false_2. }
  cbn [negb]. change (str_opt (Some b)) with b.
  unfold UserRepository.get_all_active.
  change (db (emit w Answer)) with (db w). fold active. fold snapshot.
  rewrite length_fmap.
  set (w1 := edit_text _ _).
  destruct (broadcast_loop_spec env ("Announcement:" +:+ nl +:+ nl +:+ b)
              (UserRepository.to_model <$> snapshot) w1 0 0)
    as (tries & -> & Hatt & Hlen).
  rewrite !Z.add_0_l. eexists _, tries. split; [reflexivity|].
  split; [simpl; by rewrite <- !app_assoc|].
  split.
  { rewrite <- list_fmap_compose in Hatt.
    replace (user_id <$> snapshot) with ((user_id ∘ UserRepository.to_model) <$> snapshot);
      [done|]. by apply list_fmap_ext. }
  split; [rewrite length_fmap in Hlen; lia|].
  split; [intros Hfew; by apply take_ge|].
  split; [|done]. unfold pop_broadcast_message. by rewrite get_user_data_set.
Qed.

(** C3, as the code has it: on a confirmed broadcast with body [b] the
    snapshot is the first 1000 users that are not blocked, in the store's
    order (all of them when there are at most 1000); the body is sent once
    to every user of the snapshot, a failure is tallied and not tried again;
    the admin is told [sent] and [failed], which add up to the size of the
    snapshot; the conversation ends and the body is forgotten. *)
Theorem broadcast_reaches_the_snapshot (env : Env) (update : Update) (w : World)
    (b : string) :
  let me := id (effective_user update) in
  let active := List.filter (fun d => negb (is_blocked d)) (users (db w)) in
  let snapshot := take 1000 active in
  broadcast_conv w !! me = Some CONFIRM_BROADCAST ->
  data update = "broadcast_confirm"%string ->
  broadcast_message (get_user_data w me) = Some b ->
  b <> ""%string ->
  exists (w' : World) (tries : list effect),
    let sent := Z.of_nat (length (List.filter delivered tries)) in
    let failed := Z.of_nat (length (List.filter refused tries)) in
    broadcast_conv_handle CallbackQuery env update w = Some (w', Ret (Some END))
    /\ trace w' =
         trace w ++
         [Answer;
          EditText ("Sending to " +:+ str_int (Z.of_nat (length snapshot))
                    +:+ " users...")] ++
         tries ++
         [ReplyText ("Broadcast Complete!" +:+ nl +:+ "Sent: " +:+ str_int sent
                     +:+ nl +:+ "Failed: " +:+ str_int failed) None]
    /\ Forall2 (attempt ("Announcement:" +:+ nl +:+ nl +:+ b) None)
               tries (user_id <$> snapshot)
    /\ sent + failed = Z.of_nat (length snapshot)
    /\ ((length active <= 1000)%nat -> snapshot = active)
    /\ broadcast_conv w' !! me = None
    /\ broadcast_message (get_user_data w' me) = None
    /\ db w' = db w.
Proof.
  intros me active snapshot Hconv Hdata Hbody Hne.
  destruct (broadcast_confirm_callback_spec env update w b Hdata Hbody Hne)
    as (w1 & tries & Hrun & Htrace & Hatt & Htally & Hall & Hforgot & Hdb).
  exists (set_broadcast_conv w1 (delete me (broadcast_conv w1))), tries.
  split.
  { unfold broadcast_conv_handle, in_broadcast_conv. fold me.
    rewrite Hconv, Hrun. unfold is_broadcast_data. rewrite Hdata. done. }
  split; [exact Htrace|]. split; [exact Hatt|]. split; [exact Htally|].
  split; [exact Hall|]. split; [apply lookup_delete_eq|].
  split; [exact Hforgot|exact Hdb].
Qed.

Lemma broadcast_reaches_the_snapshot_witness :
  exists (w' : World) (tries : list effect),
    broadcast_conv_handle CallbackQuery (Scenario.env [101])
      (Scenario.presses Scenario.admin1 "broadcast_confirm")
      (Scenario.confirming (Scenario.crowd 3 100) "news")
    = Some (w', Ret (Some END))
    /\ Z.of_nat (length (List.filter delivered tries))
       + Z.of_nat (length (List.filter refused tries)) = 3
    /\ broadcast_conv w' !! 1 = None.
Proof.
  destruct (broadcast_reaches_the_snapshot (Scenario.env [101])
              (Scenario.presses Scenario.admin1 "broadcast_confirm")
              (Scenario.confirming (Scenario.crowd 3 100) "news") "news"
              ltac:(vm_compute; reflexivity) ltac:(vm_compute; reflexivity)
              ltac:(vm_compute; reflexivity) ltac:(discriminate))
    as (w' & tries & Hrun & _ & _ & Htally & _ & Hidle & _).
  exists w', tries. split; [exact Hrun|]. split; [exact Htally|exact Hidle].
Defined.

(** The spec's example: users A, B, C, delivery to B fails: three tries,
    2 sent and 1 failed. *)
Example broadcast_tally :
  let w := Scenario.confirming (Scenario.crowd 3 100) "news" in
  let w' := after w (broadcast_conv_handle CallbackQuery (Scenario.env [101])
                       (Scenario.presses Scenario.admin1 "broadcast_confirm") w) in
  recipients (trace w') = [100; 101; 102]
  /\ last (trace w')
     = Some (ReplyText ("Broadcast Complete!" +:+ nl +:+ "Sent: 2" +:+ nl
                        +:+ "Failed: 1") None).
Proof. vm_compute. split; reflexivity. Qed.

(** C3, as the claim has it, fails on a store with 1001 users none of whom
    is blocked: 1000 deliveries are tried, user 1100 is not among them, and
    the tally adds up to 1000. *)
Lemma broadcast_misses_user_1001 :
  let docs := Scenario.crowd 1001 100 in
  let w := Scenario.confirming docs "news" in
  let w' := after w (broadcast_conv_handle CallbackQuery (Scenario.env [])
                       (Scenario.presses Scenario.admin1 "broadcast_confirm") w) in
  ~ (forall d, In d docs -> is_blocked d = false ->
               In (user_id d) (recipients (trace w')))
  /\ length (List.filter (fun d => negb (is_blocked d)) docs) = 1001%nat
  /\ length (recipients (trace w')) = 1000%nat
  /\ last (trace w')
     = Some (ReplyText ("Broadcast Complete!" +:+ nl +:+ "Sent: 1000" +:+ nl
                        +:+ "Failed: 0") None).
Proof.
  intros docs w w'.
  assert (existsb (Z.eqb 1100) (recipients (trace w')) = false) as Hmiss
    by (vm_compute; reflexivity).
  split.
  - intros Hall.
    assert (In (Scenario.doc 1100 false) docs) as Hin.
    { apply (nth_error_In docs 1000). vm_compute. reflexivity. }
    specialize (Hall _ Hin eq_refl). simpl in Hall.
    assert (existsb (Z.eqb 1100) (recipients (trace w')) = true); [|congruence].
    apply existsb_exists. exists 1100. split; [done|apply Z.eqb_refl].
  - vm_compute. repeat split; reflexivity.
Qed.

(** ** Reply of an admin *)

Section AdminReply.
Variables (env : Env) (update : Update) (w : World) (target : Z).

Let me : Z := id (effective_user update).
Let body : string := "Reply from Admin:" +:+ nl +:+ nl +:+ str_opt (text update).

Hypothesis Hpending : reply_to_user (get_user_data w me) = Some target.

(** The delivery raises: the admin is told, nothing is stored. *)
Lemma handle_admin_reply_failed (e : string) :
  deliver env (trace w) target body = Some e ->
  handle_admin_reply env update w =
    (set_user_data
       (set_trace w (trace w ++ [SendMessage target body None (Some e);
                                 ReplyText ("Failed to send reply: " +:+ e) None]))
       me {| reply_to_user := None;
             broadcast_message := broadcast_message (get_user_data w me) |},
     Ret (Some END)).
Proof.
  intros Hdown. unfold handle_admin_reply. fold me. rewrite Hpending.
  unfold send_message. fold body. rewrite Hdown.
  unfold reply_text, emit, set_trace, set_user_data, get_user_data. simpl.
  by rewrite <- app_assoc.
Qed.

(** The delivery goes through: the reply is stored with the admin's
    identity, then the admin is told. *)
Lemma handle_admin_reply_sent :
  deliver env (trace w) target body = None ->
  handle_admin_reply env update w =
    (set_user_data
       (set_db
          (set_trace w
             (trace w ++
              [SendMessage target body None None;
               InsertMessage (MessageRepository.document (iso_now env) target
                                (text update) "admin_to_user" (Some me));
               ReplyText ("Reply sent to user " +:+ str_int target +:+ "!") None]))
          (MessageRepository.save_message (iso_now env) (db w) target
             (text update) "admin_to_user" (Some me)))
       me {| reply_to_user := None;
             broadcast_message := broadcast_message (get_user_data w me) |},
     Ret (Some END)).
Proof.
  intros Hup. unfold handle_admin_reply. fold me. rewrite Hpending.
  unfold send_message. fold body. rewrite Hup.
  unfold save_message, reply_text, emit, set_trace, set_db, set_user_data,
    get_user_data. simpl.
  by rewrite <- !app_assoc.
Qed.

End AdminReply.

(** Without a pending target the handler ends the conversation and does
    nothing. *)
Lemma handle_admin_reply_idle (env : Env) (update : Update) (w : World) :
  reply_to_user (get_user_data w (id (effective_user update))) = None ->
  handle_admin_reply env update w = (w, Ret (Some END)).
Proof. intros H. unfold handle_admin_reply. by rewrite H. Qed.

(** ** Texts of an admin outside the reply flow *)

Lemma sends_app (t u : list effect) : sends (t ++ u) = sends t ++ sends u.
Proof. apply List.filter_app. Qed.

Lemma sends_reply (t : list effect) (x : string) (k : option markup) :
  sends (t ++ [ReplyText x k]) = sends t.
Proof. rewrite sends_app. simpl. by rewrite app_nil_r. Qed.

(** A text of an admin that the reply conversation is not waiting for
    makes the bot answer at most; nothing is sent to anyone else. *)
Lemma on_text_sends_nothing (cfg : Config) (env : Env) (update : Update)
    (w : World) :
  AdminManager.is_admin (_admins w) (id (effective_user update)) = true ->
  reply_conv w !! id (effective_user update) = None ->
  sends (trace (fst (on_text cfg env update w))) = sends (trace w).
Proof.
  intros Hadmin Hconv.
  unfold on_text, reply_conv_handle. rewrite Hconv.
  unfold broadcast_conv_handle, in_broadcast_conv.
  destruct (broadcast_conv w !! id (effective_user update)) as [[]|];
    unfold admin_menu_handler, dashboard_handler, users_handler, menu_handler,
      broadcast_handler, receive_broadcast_message, help_command, about_command,
      handle_user_message, check_admin, reply_text_with, reply_text;
    rewrite ?Hadmin; cbn [negb];
    repeat (case_bool_decide; cbn [negb fst snd trace emit set_trace
                                   set_broadcast_conv set_user_data]);
    repeat match goal with
           | |- context [is_admin_menu_text ?t] => destruct (is_admin_menu_text t)
           | |- context [is_user_menu_text ?t] => destruct (is_user_menu_text t)
           | |- context [UserRepository.get_all_active ?d] =>
               destruct (UserRepository.get_all_active d)
           end;
    rewrite ?Hadmin; cbn [negb];
    repeat (case_bool_decide; cbn [negb]);
    simpl; rewrite ?Hadmin; simpl; rewrite ?sends_reply; try done.
Qed.

(** C8: an admin who is waiting to reply to [target] sends the reply text
    and the delivery fails: one delivery is tried, the admin is told of the
    failure, the conversation ends and the target is forgotten.  A later
    text of the same admin is not taken by the reply conversation; the
    reply handler, were it run on it, and the user-message handler do
    nothing, and whichever handler of [main] takes the text, nothing more
    is sent. *)
Theorem failed_reply_returns_to_idle (cfg : Config) (env : Env) (update : Update)
    (w : World) (target : Z) (e : string) :
  let me := id (effective_user update) in
  let body := "Reply from Admin:" +:+ nl +:+ nl +:+ str_opt (text update) in
  AdminManager.is_admin (_admins w) me = true ->
  reply_conv w !! me = Some WAITING_FOR_REPLY ->
  reply_to_user (get_user_data w me) = Some target ->
  deliver env (trace w) target body = Some e ->
  exists w' : World,
    reply_conv_handle TextMessage env update w = Some (w', Ret (Some END))
    /\ trace w' = trace w ++ [SendMessage target body None (Some e);
                              ReplyText ("Failed to send reply: " +:+ e) None]
    /\ reply_conv w' !! me = None
    /\ reply_to_user (get_user_data w' me) = None
    /\ forall (env2 : Env) (update2 : Update),
         id (effective_user update2) = me ->
         reply_conv_handle TextMessage env2 update2 w' = None
         /\ handle_admin_reply env2 update2 w' = (w', Ret (Some END))
         /\ handle_user_message cfg env2 update2 w' = (w', Ret None)
         /\ sends (trace (fst (on_text cfg env2 update2 w'))) = sends (trace w').
Proof.
  intros me body Hadmin Hconv Hpending Hdown.
  unfold reply_conv_handle, in_reply_conv. fold me. rewrite Hconv.
  rewrite (handle_admin_reply_failed env update w target Hpending e Hdown).
  fold me. eexists. split; [reflexivity|].
  split; [done|]. split; [apply lookup_delete_eq|].
  set (w1 := set_user_data _ _ _).
  assert (forall c, get_user_data (set_reply_conv w1 c) me
                    = {| reply_to_user := None;
                         broadcast_message := broadcast_message (get_user_data w me) |})
    as Hdata.
  { intros c. unfold get_user_data, w1. simpl. by rewrite lookup_insert_eq. }
  split; [by rewrite Hdata|].
  intros env2 update2 Hsame. split; [|split; [|split]].
  - unfold reply_conv_handle. rewrite Hsame. simpl.
    by rewrite lookup_delete_eq.
  - apply handle_admin_reply_idle. rewrite Hsame. by rewrite Hdata.
  - unfold handle_user_message. rewrite Hsame. simpl. by rewrite Hadmin.
  - apply on_text_sends_nothing; rewrite Hsame; simpl; [done|].
    apply lookup_delete_eq.
Qed.

Lemma failed_reply_returns_to_idle_witness :
  exists w' : World,
    reply_conv_handle TextMessage (Scenario.env [100])
      (Scenario.says Scenario.admin1 "hello")
      (Scenario.replying [Scenario.doc 100 false] 100)
    = Some (w', Ret (Some END))
    /\ reply_conv w' !! 1 = None
    /\ reply_conv_handle TextMessage (Scenario.env [])
         (Scenario.says Scenario.admin1 "again") w' = None.
Proof.
  destruct (failed_reply_returns_to_idle default_config (Scenario.env [100])
              (Scenario.says Scenario.admin1 "hello")
              (Scenario.replying [Scenario.doc 100 false] 100) 100 "Forbidden"
              ltac:(vm_compute; reflexivity) ltac:(vm_compute; reflexivity)
              ltac:(vm_compute; reflexivity) ltac:(vm_compute; reflexivity))
    as (w' & Hrun & _ & Hconv & _ & Hnext).
  exists w'. split; [exact Hrun|]. split; [exact Hconv|].
  exact (proj1 (Hnext (Scenario.env []) (Scenario.says Scenario.admin1 "again")
                  eq_refl)).
Defined.

(** The spec's example of the reply flow when the delivery goes through:
    one delivery to the user, one stored message with the admin's identity,
    and a second text that the conversation no longer takes. *)
Example reply_flow :
  match reply_conv_handle TextMessage (Scenario.env [])
          (Scenario.says Scenario.admin1 "hello")
          (Scenario.replying [Scenario.doc 100 false] 100) with
  | Some (w', r) =>
      r = Ret (Some END)
      /\ recipients (trace w') = [100]
      /\ messages (db w')
         = [MessageRepository.document "2024-01-02T00:00:00+00:00" 100
              (Some "hello") "admin_to_user" (Some 1)]
      /\ reply_conv_handle TextMessage (Scenario.env [])
           (Scenario.says Scenario.admin1 "again") w' = None
  | None => False
  end.
Proof. vm_compute. repeat split; reflexivity. Qed.

(** C10: when the delivery of an admin's reply fails, the store is left as
    it was and no insert is made; the [admin_to_user] message, with the
    replying admin's identity, is stored exactly when the delivery went
    through. *)
Theorem failed_reply_is_not_stored (env : Env) (update : Update) (w : World)
    (target : Z) :
  let me := id (effective_user update) in
  let body := "Reply from Admin:" +:+ nl +:+ nl +:+ str_opt (text update) in
  let w' := fst (handle_admin_reply env update w) in
  reply_to_user (get_user_data w me) = Some target ->
  (forall e, deliver env (trace w) target body = Some e ->
             db w' = db w
             /\ List.filter is_insert (trace w') = List.filter is_insert (trace w))
  /\ (deliver env (trace w) target body = None ->
      users (db w') = users (db w)
      /\ messages (db w') =
           messages (db w) ++
           [{| msg_user_id := target; admin_id := Some me;
               message_text := text update; direction := "admin_to_user";
               msg_created_at := Some (iso_now env) |}])
  /\ (messages (db w') <> messages (db w) ->
      deliver env (trace w) target body = None).
Proof.
  intros me body w' Hpending.
  assert (forall e, deliver env (trace w) target body = Some e ->
             db w' = db w
             /\ List.filter is_insert (trace w') = List.filter is_insert (trace w))
    as Hfail.
  { intros e Hdown. unfold w'.
    rewrite (handle_admin_reply_failed env update w target Hpending e Hdown).
    split; [done|]. simpl. rewrite List.filter_app. simpl. by rewrite app_nil_r. }
  split; [exact Hfail|]. split.
  - intros Hup. unfold w'.
    by rewrite (handle_admin_reply_sent env update w target Hpending Hup).
  - intros Hchanged.
    destruct (deliver env (trace w) target body) as [e|] eqn:D; [|done].
    destruct (Hfail e eq_refl) as [Hdb _]. by rewrite Hdb in Hchanged.
Qed.

Lemma failed_reply_is_not_stored_witness :
  let w := Scenario.replying [Scenario.doc 100 false] 100 in
  let w' := fst (handle_admin_reply (Scenario.env [100])
                   (Scenario.says Scenario.admin1 "hello") w) in
  db w' = db w
  /\ List.filter is_insert (trace w') = List.filter is_insert (trace w).
Proof.
  exact (proj1 (failed_reply_is_not_stored (Scenario.env [100])
                  (Scenario.says Scenario.admin1 "hello")
                  (Scenario.replying [Scenario.doc 100 false] 100) 100
                  ltac:(vm_compute; reflexivity))
           "Forbidden"%string ltac:(vm_compute; reflexivity)).
Defined.

(** * Further properties of the code *)

(** ** RateLimiter: what a call does to the windows *)

Lemma filter_shorter {A} (P : A -> Prop) `{forall x, Decision (P x)}
    (l : list A) (x : A) :
  In x l -> ~ P x -> (length (filter P l) < length l)%nat.
Proof.
  induction l as [|y l IH]; [done|]. intros [->|Hin] Hx.
  - rewrite filter_cons_False by done. simpl.
    pose proof (length_filter P l). lia.
  - specialize (IH Hin Hx). rewrite filter_cons. case_decide; simpl; lia.
Qed.

Lemma filter_filter_weaker {A} (f g : A -> bool) (l : list A) :
  (forall x, g x = true -> f x = true) ->
  List.filter g (List.filter f l) = List.filter g l.
Proof.
  intros Himp. induction l as [|x l IH]; [done|]. simpl.
  destruct (f x) eqn:F, (g x) eqn:G; simpl; rewrite ?G, ?IH; try done.
  apply Himp in G. congruence.
Qed.

(** Every path of the call writes the caller's window and nothing else: it
    becomes the pruned window, with [now] appended when there was room. *)
Lemma check_rate_limit_shape (cfg : Config) (now : Q) (um : gmap Z (list Q))
    (uid : Z) :
  let kept := filter (fun t => ~ (t <= now - inject_Z (RATE_LIMIT_WINDOW cfg))%Q)
                     (RateLimiter.window um uid) in
  exists w' : list Q,
    fst (RateLimiter.check_rate_limit cfg now um uid) = <[uid := w']> um
    /\ (w' = kept
        \/ (w' = kept ++ [now]
            /\ Z.of_nat (length kept) < RATE_LIMIT_MESSAGES cfg)).
Proof.
  intros kept. unfold RateLimiter.check_rate_limit. rewrite prune_filter.
  fold kept.
  destruct (Z.geb_spec (Z.of_nat (length kept)) (RATE_LIMIT_MESSAGES cfg)).
  - exists kept. split; [by destruct (py_min kept)|by left].
  - exists (kept ++ [now]). split; [simpl; by rewrite insert_insert_eq|].
    right. split; [done|lia].
Qed.

(** What a denial tells about the call. *)
Lemma check_rate_limit_denied_inv (cfg : Config) (now : Q)
    (um um' : gmap Z (list Q)) (uid : Z) (r : Z) :
  let W := inject_Z (RATE_LIMIT_WINDOW cfg) in
  let kept := filter (fun t => ~ (t <= now - W)%Q) (RateLimiter.window um uid) in
  RateLimiter.check_rate_limit cfg now um uid = (um', Ret (false, r)) ->
  um' = <[uid := kept]> um
  /\ RATE_LIMIT_MESSAGES cfg <= Z.of_nat (length kept)
  /\ exists oldest, In oldest kept
       /\ r = Z.max 0 (Qfloor (oldest + W - now) + 1).
Proof.
  intros W kept H.
  destruct (decide (RATE_LIMIT_MESSAGES cfg <= Z.of_nat (length kept))) as [Hfull|Hroom].
  - destruct (decide (kept = [])) as [Hnil|Hne].
    + destruct (check_rate_limit_raises cfg now um uid) as [e He]; [|done|].
      * fold W kept in Hfull |- *. rewrite Hnil in Hfull. simpl in Hfull. lia.
      * congruence.
    + destruct (py_min_spec kept Hne) as (oldest & Hmin & Hin & _).
      rewrite (check_rate_limit_denied cfg now um uid oldest Hfull Hmin) in H.
      injection H as <- <-. split; [done|]. split; [done|]. by exists oldest.
  - rewrite (check_rate_limit_admitted cfg now um uid) in H; [done|].
    fold W kept. lia.
Qed.

(** X1: with a limit that is not negative, serving any requests of any
    identities keeps every window within the limit. *)
Theorem serve_keeps_windows_bounded (cfg : Config) (requests : list (Z * Q))
    (um : gmap Z (list Q)) :
  0 <= RATE_LIMIT_MESSAGES cfg ->
  (forall uid, Z.of_nat (length (RateLimiter.window um uid)) <= RATE_LIMIT_MESSAGES cfg) ->
  forall uid,
    Z.of_nat (length (RateLimiter.window (serve cfg um requests) uid))
    <= RATE_LIMIT_MESSAGES cfg.
Proof.
  intros Hcfg. revert um. unfold serve.
  induction requests as [|[who now] requests IH]; intros um Hb; [done|].
  simpl. apply IH. intros uid.
  destruct (check_rate_limit_shape cfg now um who) as (w' & -> & Hw').
  unfold RateLimiter.window at 1.
  destruct (decide (who = uid)) as [->|Hne].
  - rewrite lookup_insert_eq. simpl.
    pose proof (length_filter
      (fun t => ~ (t <= now - inject_Z (RATE_LIMIT_WINDOW cfg))%Q)
      (RateLimiter.window um uid)) as Hlen.
    specialize (Hb uid).
    destruct Hw' as [->|[-> Hroom]]; [lia|].
    rewrite length_app. simpl. lia.
  - rewrite lookup_insert_ne by done. apply Hb.
Qed.

Lemma serve_keeps_windows_bounded_witness :
  Z.of_nat (length (RateLimiter.window
     (serve default_config ∅
        [(7, 0%Q); (8, 0%Q); (7, 1%Q); (7, 2%Q); (7, 3%Q); (7, 4%Q); (7, 5%Q);
         (7, 6%Q)]) 7)) <= 5.
Proof.
  apply (serve_keeps_windows_bounded default_config _ ∅); [done|].
  intros uid. unfold RateLimiter.window. by rewrite lookup_empty.
Defined.

(** X2: a call by one identity leaves the window of every other identity as
    it was, whether or not that identity has a window yet. *)
Theorem check_rate_limit_other_identity (cfg : Config) (now : Q)
    (um : gmap Z (list Q)) (uid other : Z) :
  other <> uid ->
  fst (RateLimiter.check_rate_limit cfg now um uid) !! other = um !! other.
Proof.
  intros Hne.
  destruct (check_rate_limit_shape cfg now um uid) as (w' & -> & _).
  by rewrite lookup_insert_ne.
Qed.

Lemma check_rate_limit_other_identity_witness :
  fst (RateLimiter.check_rate_limit default_config 0 {[8 := [0%Q]]} 7) !! 8
  = Some [0%Q].
Proof.
  rewrite (check_rate_limit_other_identity default_config 0 {[8 := [0%Q]]} 7 8)
    by done.
  apply lookup_singleton_eq.
Defined.

(** X3: the wait a denial names is long enough: if the window was within
    the limit, the same identity is let in at any time that is at least
    that many seconds after the denied call. *)
Theorem retry_after_is_enough (cfg : Config) (now later : Q)
    (um um' : gmap Z (list Q)) (uid : Z) (retry_after : Z) :
  Z.of_nat (length (RateLimiter.window um uid)) <= RATE_LIMIT_MESSAGES cfg ->
  RateLimiter.check_rate_limit cfg now um uid = (um', Ret (false, retry_after)) ->
  (now + inject_Z retry_after <= later)%Q ->
  snd (RateLimiter.check_rate_limit cfg later um' uid) = Ret (true, 0).
Proof.
  intros Hb Hdenied Hlater.
  apply check_rate_limit_denied_inv in Hdenied
    as (-> & Hfull & oldest & Hin & ->).
  set (W := inject_Z (RATE_LIMIT_WINDOW cfg)) in *.
  set (kept := filter _ _) in *.
  rewrite check_rate_limit_admitted; [done|].
  unfold RateLimiter.window at 1. rewrite lookup_insert_eq. simpl.
  assert (length (filter (fun t => ~ (t <= later - W)%Q) kept) < length kept)%nat
    as Hshorter.
  { apply (filter_shorter _ kept oldest Hin). intros Hyoung. apply Hyoung.
    pose proof (Qlt_floor (oldest + W - now)) as Hfl.
    assert (inject_Z (Qfloor (oldest + W - now) + 1)
            <= inject_Z (Z.max 0 (Qfloor (oldest + W - now) + 1)))%Q as Hmax.
    { rewrite <- Zle_Qle. lia. }
    lra. }
  pose proof (length_filter (fun t => ~ (t <= now - W)%Q)
                (RateLimiter.window um uid)) as Hlen.
  fold kept in Hlen. fold W. lia.
Qed.

Lemma retry_after_is_enough_witness :
  snd (RateLimiter.check_rate_limit default_config (inject_Z 91)
         {[7 := [1%Q; 2%Q; 3%Q; 4%Q; 5%Q]]} 7) = Ret (true, 0).
Proof.
  apply (retry_after_is_enough default_config (inject_Z 60) (inject_Z 91)
           {[7 := [1%Q; 2%Q; 3%Q; 4%Q; 5%Q]]}
           {[7 := [1%Q; 2%Q; 3%Q; 4%Q; 5%Q]]} 7 2).
  - vm_compute. discriminate.
  - vm_compute. reflexivity.
  - vm_compute. discriminate.
Defined.

(** X4: once every recorded timestamp of an identity is a full window old,
    a positive limit lets the identity in, however many timestamps there
    were, and its window starts afresh with the time of the call. *)
Theorem expired_window_lets_in (cfg : Config) (now : Q) (um : gmap Z (list Q))
    (uid : Z) :
  0 < RATE_LIMIT_MESSAGES cfg ->
  (forall t, In t (RateLimiter.window um uid) ->
             (t <= now - inject_Z (RATE_LIMIT_WINDOW cfg))%Q) ->
  RateLimiter.check_rate_limit cfg now um uid = (<[uid := [now]]> um, Ret (true, 0)).
Proof.
  intros Hcfg Hold.
  assert (filter (fun t => ~ (t <= now - inject_Z (RATE_LIMIT_WINDOW cfg))%Q)
                 (RateLimiter.window um uid) = []) as Hnone.
  { induction (RateLimiter.window um uid) as [|t l IH]; [done|].
    rewrite filter_cons_False.
    - apply IH. intros u Hu. apply Hold. by right.
    - intros Hyoung. apply Hyoung, Hold. by left. }
  rewrite check_rate_limit_admitted; rewrite Hnone; [done|simpl; lia].
Qed.

Lemma expired_window_lets_in_witness :
  RateLimiter.check_rate_limit default_config (inject_Z 100)
    {[7 := [1%Q; 2%Q; 3%Q; 4%Q; 5%Q; 6%Q; 7%Q]]} 7
  = (<[7 := [inject_Z 100]]> {[7 := [1%Q; 2%Q; 3%Q; 4%Q; 5%Q; 6%Q; 7%Q]]},
     Ret (true, 0)).
Proof.
  apply (expired_window_lets_in default_config (inject_Z 100)
           {[7 := [1%Q; 2%Q; 3%Q; 4%Q; 5%Q; 6%Q; 7%Q]]} 7); [done|].
  intros t Ht. vm_compute in Ht.
  repeat (destruct Ht as [<-|Ht]; [vm_compute; discriminate|]). destruct Ht.
Defined.

(** X5: a denied call costs nothing: a later call of the same identity
    behaves exactly as if the denied call had not been made. *)
Theorem denied_call_leaves_no_mark (cfg : Config) (now later : Q)
    (um um' : gmap Z (list Q)) (uid : Z) (retry_after : Z) :
  RateLimiter.check_rate_limit cfg now um uid = (um', Ret (false, retry_after)) ->
  (now <= later)%Q ->
  RateLimiter.check_rate_limit cfg later um' uid
  = RateLimiter.check_rate_limit cfg later um uid.
Proof.
  intros Hdenied Hlater.
  assert (um' = <[uid := List.filter
                    (fun t => Qgtb t (now - inject_Z (RATE_LIMIT_WINDOW cfg)))
                    (RateLimiter.window um uid)]> um) as ->.
  { apply check_rate_limit_denied_inv in Hdenied as [-> _].
    by rewrite prune_filter. }
  assert (forall l : list Q, RateLimiter.window (<[uid := l]> um) uid = l) as Hw.
  { intros l. unfold RateLimiter.window. by rewrite lookup_insert_eq. }
  unfold RateLimiter.check_rate_limit. rewrite !Hw.
  rewrite filter_filter_weaker.
  - by rewrite !insert_insert_eq.
  - intros t. rewrite !Qgtb_true. lra.
Qed.

Lemma denied_call_leaves_no_mark_witness :
  RateLimiter.check_rate_limit default_config (inject_Z 61)
    {[7 := [1%Q; 2%Q; 3%Q; 4%Q; 5%Q]]} 7
  = RateLimiter.check_rate_limit default_config (inject_Z 61)
      {[7 := [0%Q; 1%Q; 2%Q; 3%Q; 4%Q; 5%Q]]} 7.
Proof.
  apply (denied_call_leaves_no_mark default_config (inject_Z 60) (inject_Z 61)
           {[7 := [0%Q; 1%Q; 2%Q; 3%Q; 4%Q; 5%Q]]}
           {[7 := [1%Q; 2%Q; 3%Q; 4%Q; 5%Q]]} 7 2).
  - vm_compute. reflexivity.
  - vm_compute. discriminate.
Defined.

(** ** AdminManager: how the operations compose *)

(** X6: adding an identity and removing it again gives back the set of
    admins there was, unless the set was empty, in which case the removal is
    refused and the new admin stays; removing an admin and adding it again
    gives back the set as well. *)
Theorem add_remove_round_trip :
  (forall (s : gset Z) (u : Z),
     u ∉ s -> s <> ∅ ->
     AdminManager.remove_admin (fst (AdminManager.add_admin s u)) u = (s, true))
  /\ (forall u : Z,
        AdminManager.remove_admin (fst (AdminManager.add_admin ∅ u)) u
        = ({[u]}, false))
  /\ (forall (s : gset Z) (u : Z),
        u ∈ s -> s <> {[u]} ->
        AdminManager.add_admin (fst (AdminManager.remove_admin s u)) u = (s, true)).
Proof.
  split; [|split].
  - intros s u Hout Hne. unfold AdminManager.add_admin.
    rewrite bool_decide_eq_false_2 by done. simpl.
    rewrite remove_admin_done.
    + f_equal. apply set_eq. intros x.
      rewrite elem_of_difference, elem_of_union, !elem_of_singleton.
      split; [intros [[?|?] ?]; [done|congruence]|].
      intros Hx. split; [by left|]. intros ->. done.
    + apply elem_of_union_r. by apply elem_of_singleton.
    + intros E. apply Hne. apply set_eq. intros x.
      rewrite elem_of_empty. split; [|done]. intros Hx.
      assert (x ∈ ({[u]} : gset Z)) as Hxu.
      { rewrite <- E. by apply elem_of_union_l. }
      apply elem_of_singleton in Hxu. congruence.
  - intros u. unfold AdminManager.add_admin.
    rewrite bool_decide_eq_false_2 by apply not_elem_of_empty. simpl.
    rewrite (left_id_L ∅ (∪)). apply remove_admin_refused. by right.
  - intros s u Hin Hne. rewrite remove_admin_done by done. simpl.
    unfold AdminManager.add_admin.
    rewrite bool_decide_eq_false_2.
    + simpl. f_equal. apply set_eq. intros x.
      rewrite elem_of_union, elem_of_difference, !elem_of_singleton.
      split; [intros [[? _]| ->]; done|].
      intros Hx. destruct (decide (x = u)); [by right|by left].
    + rewrite elem_of_difference, elem_of_singleton. intros [_ H]. by apply H.
Qed.

Lemma add_remove_round_trip_witness :
  AdminManager.remove_admin (fst (AdminManager.add_admin {[1]} 2)) 2 = ({[1]}, true)
  /\ AdminManager.add_admin (fst (AdminManager.remove_admin {[1; 2]} 1)) 1
     = ({[1; 2]}, true).
Proof.
  split.
  - apply (proj1 add_remove_round_trip {[1]} 2).
    + rewrite elem_of_singleton. lia.
    + intros E. by apply (f_equal size) in E.
  - apply (proj2 (proj2 add_remove_round_trip) {[1; 2]} 1).
    + apply elem_of_union_l. by apply elem_of_singleton.
    + intros E. by apply (f_equal size) in E.
Defined.

(** X7: the flag an operation returns tells exactly what changed: after
    [add_admin] the identity is an admin and the count grew by one iff the
    flag is true; after [remove_admin] the identity is an admin iff the flag
    is false and it was one, and the count shrank by one iff the flag is
    true; no other identity is touched. *)
Theorem admin_operations_effect (s : gset Z) (u v : Z) :
  let '(s1, added) := AdminManager.add_admin s u in
  let '(s2, removed) := AdminManager.remove_admin s u in
  AdminManager.is_admin s1 v = AdminManager.is_admin s v || bool_decide (v = u)
  /\ AdminManager.get_admin_count s1
     = AdminManager.get_admin_count s + (if added then 1 else 0)
  /\ AdminManager.is_admin s2 v
     = AdminManager.is_admin s v && negb (bool_decide (v = u) && removed)
  /\ AdminManager.get_admin_count s2
     = AdminManager.get_admin_count s - (if removed then 1 else 0).
Proof.
  unfold AdminManager.add_admin, AdminManager.remove_admin,
    AdminManager.is_admin, AdminManager.get_admin_count.
  assert (forall b : bool, (if negb b then (s ∪ {[u]}, true) else (s, false))
                    = (if b then s else s ∪ {[u]}, negb b)) as ->
    by (by intros []).
  assert (forall b : bool, (if b then (s ∖ {[u]}, true) else (s, false))
                    = (if b then s ∖ {[u]} else s, b)) as ->
    by (by intros []).
  split; [|split; [|split]].
  - apply eq_iff_eq_true. rewrite orb_true_iff, !bool_decide_eq_true.
    destruct (bool_decide (u ∈ s)) eqn:Hu.
    + apply bool_decide_eq_true in Hu. split; [tauto|]. by intros [?| ->].
    + rewrite elem_of_union, elem_of_singleton. tauto.
  - destruct (bool_decide (u ∈ s)) eqn:Hu; simpl; [lia|].
    apply bool_decide_eq_false in Hu.
    rewrite size_union, size_singleton; [lia|].
    intros x Hx Hxu. apply elem_of_singleton in Hxu. congruence.
  - apply eq_iff_eq_true.
    rewrite andb_true_iff, negb_true_iff, andb_false_iff, !bool_decide_eq_true,
      bool_decide_eq_false.
    destruct (bool_decide (u ∈ s) && (Z.of_nat (size s) >? 1)).
    + rewrite elem_of_difference, elem_of_singleton.
      split; [tauto|]. intros [? [?|?]]; done.
    + split; [|tauto]. intros ?. split; [done|by right].
  - destruct (bool_decide (u ∈ s) && (Z.of_nat (size s) >? 1)) eqn:Hr; [|lia].
    apply andb_true_iff in Hr as [Hu _]. apply bool_decide_eq_true in Hu.
    rewrite size_difference, size_singleton.
    + assert (size s <> 0%nat); [|lia].
      intros H0. apply size_empty_inv in H0.
      apply (not_elem_of_empty (C := gset Z) u). by rewrite <- (leibniz_equiv _ _ H0).
    + intros x Hx. apply elem_of_singleton in Hx. by subst x.
Qed.

(** ** UserRepository: upsert, lookup and the blocked flag *)

Section UserRepositoryFacts.

Local Abbreviation by_id uid := (fun d : UserModel => user_id d =? uid).

Lemma find_update_first_same (uid : Z) (un fn ln : option string) (now : string)
    (docs : list UserModel) (d : UserModel) :
  List.find (by_id uid) docs = Some d ->
  List.find (by_id uid) (UserRepository.update_first uid un fn ln now docs)
  = Some {| user_id := user_id d; username := un; first_name := fn;
            last_name := ln; is_blocked := is_blocked d;
            created_at := created_at d; last_active := Some now |}.
Proof.
  induction docs as [|x docs IH]; [done|]. simpl.
  destruct (user_id x =? uid) eqn:E; simpl.
  - intros [= ->]. simpl. by rewrite E.
  - intros H. rewrite E. by apply IH.
Qed.

Lemma find_update_first_other (uid other : Z) (un fn ln : option string)
    (now : string) (docs : list UserModel) :
  other <> uid ->
  List.find (by_id other) (UserRepository.update_first uid un fn ln now docs)
  = List.find (by_id other) docs.
Proof.
  intros Hne. induction docs as [|x docs IH]; [done|]. simpl.
  destruct (user_id x =? uid) eqn:E; simpl; simpl.
  - apply Z.eqb_eq in E. rewrite E.
    destruct (uid =? other) eqn:E'; [apply Z.eqb_eq in E'; congruence|done].
  - destruct (user_id x =? other); [done|apply IH].
Qed.

Lemma find_set_blocked_same (uid : Z) (b : bool) (docs : list UserModel)
    (d : UserModel) :
  List.find (by_id uid) docs = Some d ->
  List.find (by_id uid) (UserRepository.set_blocked uid b docs)
  = Some {| user_id := user_id d; username := username d;
            first_name := first_name d; last_name := last_name d;
            is_blocked := b; created_at := created_at d;
            last_active := last_active d |}.
Proof.
  induction docs as [|x docs IH]; [done|]. simpl.
  destruct (user_id x =? uid) eqn:E; simpl.
  - intros [= ->]. simpl. by rewrite E.
  - intros H. rewrite E. by apply IH.
Qed.

Lemma find_set_blocked_other (uid other : Z) (b : bool) (docs : list UserModel) :
  other <> uid ->
  List.find (by_id other) (UserRepository.set_blocked uid b docs) = List.find (by_id other) docs.
Proof.
  intros Hne. induction docs as [|x docs IH]; [done|]. simpl.
  destruct (user_id x =? uid) eqn:E; simpl; simpl.
  - apply Z.eqb_eq in E. rewrite E.
    destruct (uid =? other) eqn:E'; [apply Z.eqb_eq in E'; congruence|done].
  - destruct (user_id x =? other); [done|apply IH].
Qed.

Lemma set_blocked_unknown (uid : Z) (b : bool) (docs : list UserModel) :
  List.find (by_id uid) docs = None -> UserRepository.set_blocked uid b docs = docs.
Proof.
  induction docs as [|x docs IH]; [done|]. simpl.
  destruct (user_id x =? uid); [done|]. intros H. by rewrite IH.
Qed.

Lemma find_app_new (uid : Z) (docs : list UserModel) (d : UserModel) :
  List.find (by_id uid) docs = None -> user_id d = uid ->
  List.find (by_id uid) (docs ++ [d]) = Some d.
Proof.
  intros Hnone Hd. induction docs as [|x docs IH]; simpl.
  - by rewrite Hd, Z.eqb_refl.
  - simpl in Hnone. destruct (by_id uid x); [done|by apply IH].
Qed.

Lemma find_app_other (uid other : Z) (docs : list UserModel) (d : UserModel) :
  other <> uid -> user_id d = uid ->
  List.find (by_id other) (docs ++ [d]) = List.find (by_id other) docs.
Proof.
  intros Hne Hd. induction docs as [|x docs IH]; simpl.
  - rewrite Hd.
    destruct (uid =? other) eqn:E; [apply Z.eqb_eq in E; congruence|done].
  - destruct (by_id other x); [done|apply IH].
Qed.

Lemma ids_update_first (uid : Z) (un fn ln : option string) (now : string)
    (docs : list UserModel) :
  user_id <$> UserRepository.update_first uid un fn ln now docs = user_id <$> docs.
Proof.
  induction docs as [|x docs IH]; [done|]. cbn [UserRepository.update_first].
  destruct (user_id x =? uid); rewrite !fmap_cons; [done|by rewrite IH].
Qed.

Lemma ids_set_blocked (uid : Z) (b : bool) (docs : list UserModel) :
  user_id <$> UserRepository.set_blocked uid b docs = user_id <$> docs.
Proof.
  induction docs as [|x docs IH]; [done|]. cbn [UserRepository.set_blocked].
  destruct (user_id x =? uid); rewrite !fmap_cons; [done|by rewrite IH].
Qed.

Lemma find_none_not_in (uid : Z) (docs : list UserModel) :
  List.find (by_id uid) docs = None -> uid ∉ user_id <$> docs.
Proof.
  induction docs as [|x docs IH]; simpl; [intros _; apply not_elem_of_nil|].
  destruct (user_id x =? uid) eqn:E; [done|].
  intros H. apply not_elem_of_cons. split; [|by apply IH].
  apply Z.eqb_neq in E. congruence.
Qed.

End UserRepositoryFacts.

Lemma find_one_id (db : Database) (uid : Z) (d : UserModel) :
  UserRepository.find_one db uid = Some d -> user_id d = uid.
Proof.
  unfold UserRepository.find_one. intros H. apply find_some in H as [_ H].
  by apply Z.eqb_eq.
Qed.

Lemma length_update_first (uid : Z) (un fn ln : option string) (now : string)
    (docs : list UserModel) :
  length (UserRepository.update_first uid un fn ln now docs) = length docs.
Proof.
  rewrite <- (length_fmap user_id), ids_update_first. apply length_fmap.
Qed.

Lemma length_set_blocked (uid : Z) (b : bool) (docs : list UserModel) :
  length (UserRepository.set_blocked uid b docs) = length docs.
Proof.
  rewrite <- (length_fmap user_id), ids_set_blocked. apply length_fmap.
Qed.

(** The upsert, seen from the lookups that follow it. *)
Lemma create_or_update_spec (now : string) (db : Database) (uid : Z)
    (un fn ln : option string) :
  let '(db', returned) := UserRepository.create_or_update now db uid un fn ln in
  let expected :=
    {| user_id := uid; username := un; first_name := fn; last_name := ln;
       is_blocked := UserRepository.is_blocked db uid;
       created_at := None; last_active := None |} in
  returned = expected
  /\ UserRepository.get_by_id db' uid = Some expected
  /\ UserRepository.get_user_count db'
     = UserRepository.get_user_count db
       + match UserRepository.find_one db uid with Some _ => 0 | None => 1 end
  /\ messages db' = messages db.
Proof.
  unfold UserRepository.create_or_update, UserRepository.get_by_id,
    UserRepository.is_blocked, UserRepository.get_by_id,
    UserRepository.get_user_count.
  destruct (UserRepository.find_one db uid) as [d|] eqn:Hfind.
  - pose proof (find_one_id db uid d Hfind) as Hid.
    unfold UserRepository.find_one in *. cbn [users].
    rewrite (find_update_first_same uid un fn ln now (users db) d Hfind).
    rewrite length_update_first. simpl. unfold UserRepository.to_model. simpl.
    rewrite Hid. repeat split; try done. lia.
  - unfold UserRepository.find_one in *. cbn [users].
    erewrite (find_app_new uid (users db)); [|done|done].
    rewrite length_app. simpl. repeat split; try done. lia.
Qed.

(** X8: what [create_or_update] returns is what a lookup of that user finds
    afterwards: the given names under the given id, and the blocked flag the
    user had before ([False] for a new user); an upsert never unblocks.  The
    number of users grows by one exactly for a new user, and the messages
    are not touched. *)
Theorem upsert_then_lookup (now : string) (db : Database) (uid : Z)
    (un fn ln : option string) :
  let '(db', returned) := UserRepository.create_or_update now db uid un fn ln in
  let expected :=
    {| user_id := uid; username := un; first_name := fn; last_name := ln;
       is_blocked := UserRepository.is_blocked db uid;
       created_at := None; last_active := None |} in
  returned = expected
  /\ UserRepository.get_by_id db' uid = Some expected
  /\ UserRepository.get_user_count db'
     = UserRepository.get_user_count db
       + match UserRepository.find_one db uid with Some _ => 0 | None => 1 end
  /\ messages db' = messages db.
Proof. apply create_or_update_spec. Qed.

(** X9: every write to the users collection touches the document of one
    user: after an upsert, a block or an unblock of [uid], the lookup of any
    other user finds the document it found before. *)
Theorem user_writes_touch_one_user (now : string) (db : Database) (uid other : Z)
    (un fn ln : option string) :
  other <> uid ->
  UserRepository.find_one
    (fst (UserRepository.create_or_update now db uid un fn ln)) other
  = UserRepository.find_one db other
  /\ UserRepository.find_one (fst (UserRepository.block_user db uid)) other
     = UserRepository.find_one db other
  /\ UserRepository.find_one (fst (UserRepository.unblock_user db uid)) other
     = UserRepository.find_one db other.
Proof.
  intros Hne. unfold UserRepository.create_or_update, UserRepository.block_user,
    UserRepository.unblock_user, UserRepository.find_one. cbn [fst users].
  split; [|split; by apply (find_set_blocked_other uid other)].
  destruct (find _ (users db)) eqn:Hfind.
  - by apply (find_update_first_other uid other).
  - by apply (find_app_other uid other).
Qed.

Lemma user_writes_touch_one_user_witness :
  UserRepository.find_one
    (fst (UserRepository.block_user
            {| users := [Scenario.doc 100 false; Scenario.doc 101 false];
               messages := [] |} 100)) 101
  = Some (Scenario.doc 101 false).
Proof.
  rewrite (proj1 (proj2 (user_writes_touch_one_user ""
             {| users := [Scenario.doc 100 false; Scenario.doc 101 false];
                messages := [] |} 100 101 None None None ltac:(lia)))).
  reflexivity.
Defined.

(** X10: the code keeps user ids unique on its own: if no two documents
    share a [user_id], none do after an upsert, a block or an unblock. *)
Theorem user_ids_stay_unique (now : string) (db : Database) (uid : Z)
    (un fn ln : option string) :
  NoDup (user_id <$> users db) ->
  NoDup (user_id <$> users (fst (UserRepository.create_or_update now db uid un fn ln)))
  /\ NoDup (user_id <$> users (fst (UserRepository.block_user db uid)))
  /\ NoDup (user_id <$> users (fst (UserRepository.unblock_user db uid))).
Proof.
  intros Hnodup. unfold UserRepository.create_or_update,
    UserRepository.block_user, UserRepository.unblock_user. cbn [fst users].
  split; [|by rewrite !ids_set_blocked].
  destruct (UserRepository.find_one db uid) eqn:Hfind.
  - by rewrite ids_update_first.
  - rewrite fmap_app. apply NoDup_app. split; [done|].
    split; [|apply NoDup_singleton].
    intros x Hx Hx'. apply list_elem_of_singleton in Hx'. simpl in Hx'. subst x.
    by apply (find_none_not_in uid (users db)).
Qed.

Lemma user_ids_stay_unique_witness :
  NoDup (user_id <$> users (fst (UserRepository.create_or_update ""
           {| users := [Scenario.doc 100 false]; messages := [] |} 101
           None None None))).
Proof.
  apply (user_ids_stay_unique ""
           {| users := [Scenario.doc 100 false]; messages := [] |} 101
           None None None).
  apply NoDup_singleton.
Defined.

Lemma set_blocked_twice (uid : Z) (b b' : bool) (docs : list UserModel) :
  UserRepository.set_blocked uid b (UserRepository.set_blocked uid b' docs)
  = UserRepository.set_blocked uid b docs.
Proof.
  induction docs as [|x docs IH]; [done|]. simpl.
  destruct (user_id x =? uid) eqn:E; simpl; rewrite E; [done|by rewrite IH].
Qed.

Lemma set_blocked_same (uid : Z) (b : bool) (docs : list UserModel) :
  match find (fun d => user_id d =? uid) docs with
  | Some d => is_blocked d = b
  | None => True
  end ->
  UserRepository.set_blocked uid b docs = docs.
Proof.
  induction docs as [|x docs IH]; [done|]. simpl.
  destruct (user_id x =? uid).
  - intros <-. by destruct x.
  - intros H. by rewrite IH.
Qed.

(** X11: [block_user] answers [True] in every case, but only a user with a
    document gets blocked.  For a known user the flag is set and the rest of
    the document stays; for an identity without a document the store is
    left as it was, so that the user, once registered by a later upsert, is
    not blocked. *)
Theorem block_user_effect (now : string) (db : Database) (uid : Z)
    (un fn ln : option string) :
  let '(db', answer) := UserRepository.block_user db uid in
  answer = true
  /\ match UserRepository.find_one db uid with
     | Some d =>
         UserRepository.find_one db' uid
         = Some {| user_id := user_id d; username := username d;
                   first_name := first_name d; last_name := last_name d;
                   is_blocked := true; created_at := created_at d;
                   last_active := last_active d |}
         /\ UserRepository.is_blocked db' uid = true
     | None =>
         db' = db
         /\ UserRepository.is_blocked
              (fst (UserRepository.create_or_update now db' uid un fn ln)) uid
            = false
     end.
Proof.
  unfold UserRepository.block_user. split; [done|].
  destruct (UserRepository.find_one db uid) as [d|] eqn:Hfind.
  - unfold UserRepository.is_blocked, UserRepository.get_by_id,
      UserRepository.find_one in *. cbn [users].
    by rewrite (find_set_blocked_same uid true (users db) d Hfind).
  - unfold UserRepository.find_one in Hfind.
    rewrite set_blocked_unknown by done.
    assert ({| users := users db; messages := messages db |} = db) as ->
      by (by destruct db).
    split; [done|].
    pose proof (create_or_update_spec now db uid un fn ln) as H.
    destruct (UserRepository.create_or_update now db uid un fn ln) as [db1 m].
    destruct H as (_ & Hget & _). cbn [fst].
    unfold UserRepository.is_blocked at 1. rewrite Hget. simpl.
    unfold UserRepository.is_blocked, UserRepository.get_by_id,
      UserRepository.find_one. by rewrite Hfind.
Qed.

(** X12: blocking and then unblocking a user who was not blocked gives back
    the store as it was; in every case the user is not blocked afterwards,
    and blocking twice is blocking once. *)
Theorem block_unblock_round_trip (db : Database) (uid : Z) :
  let blocked := fst (UserRepository.block_user db uid) in
  let restored := fst (UserRepository.unblock_user blocked uid) in
  (UserRepository.is_blocked db uid = false -> restored = db)
  /\ UserRepository.is_blocked restored uid = false
  /\ fst (UserRepository.block_user blocked uid) = blocked.
Proof.
  unfold UserRepository.block_user, UserRepository.unblock_user. cbn [fst users messages].
  rewrite !set_blocked_twice. split; [|split; [|done]].
  - unfold UserRepository.is_blocked, UserRepository.get_by_id,
      UserRepository.find_one.
    intros Hfree. rewrite set_blocked_same; [by destruct db|].
    destruct (find _ (users db)); [exact Hfree|done].
  - unfold UserRepository.is_blocked, UserRepository.get_by_id,
      UserRepository.find_one. cbn [users].
    destruct (find (fun d => user_id d =? uid) (users db)) as [d|] eqn:Hfind.
    + by rewrite (find_set_blocked_same uid false (users db) d Hfind).
    + rewrite set_blocked_unknown by done. by rewrite Hfind.
Qed.

Lemma block_unblock_round_trip_witness :
  fst (UserRepository.unblock_user
         (fst (UserRepository.block_user
                 {| users := [Scenario.doc 100 false]; messages := [] |} 100)) 100)
  = {| users := [Scenario.doc 100 false]; messages := [] |}.
Proof.
  apply (proj1 (block_unblock_round_trip
                  {| users := [Scenario.doc 100 false]; messages := [] |} 100)).
  reflexivity.
Defined.

Lemma get_all_active_bound (db : Database) :
  (length (UserRepository.get_all_active db) <= 1000)%nat
  /\ forall m, In m (UserRepository.get_all_active db) ->
       exists d, In d (users db) /\ is_blocked d = false
                 /\ m = UserRepository.to_model d.
Proof.
  unfold UserRepository.get_all_active. split.
  - rewrite length_fmap, length_take. lia.
  - intros m Hm. apply list_elem_of_In, list_elem_of_fmap in Hm as (d & -> & Hd).
    apply elem_of_take in Hd as (i & Hd & _).
    apply list_elem_of_lookup_2, list_elem_of_In, filter_In in Hd as [Hd Hfree].
    exists d. split; [done|]. split; [by apply negb_true_iff|done].
Qed.

(** X13: [get_all_active] lists at most 1000 users, each the copy of a
    stored document that is not blocked; with unique ids, a blocked user is
    never listed. *)
Theorem get_all_active_sound (db : Database) :
  (length (UserRepository.get_all_active db) <= 1000)%nat
  /\ (forall m, In m (UserRepository.get_all_active db) ->
        is_blocked m = false
        /\ exists d, In d (users db) /\ is_blocked d = false
                     /\ m = UserRepository.to_model d)
  /\ (forall uid,
        NoDup (user_id <$> users db) ->
        UserRepository.is_blocked db uid = true ->
        ~ In uid (user_id <$> UserRepository.get_all_active db)).
Proof.
  unfold UserRepository.get_all_active.
  assert (forall m, In m (UserRepository.to_model <$>
                      take 1000 (List.filter (fun d => negb (is_blocked d)) (users db))) ->
            exists d, In d (users db) /\ is_blocked d = false
                      /\ m = UserRepository.to_model d) as Hsound.
  { intros m Hm. apply list_elem_of_In, list_elem_of_fmap in Hm as (d & -> & Hd).
    apply elem_of_take in Hd as (i & Hd & _).
    apply list_elem_of_lookup_2, list_elem_of_In, filter_In in Hd as [Hd Hfree].
    exists d. split; [done|]. split; [by apply negb_true_iff|done]. }
  split; [|split].
  - rewrite length_fmap, length_take. lia.
  - intros m Hm. destruct (Hsound m Hm) as (d & Hd & Hfree & ->).
    split; [done|by exists d].
  - intros uid Hnodup Hblocked Hlisted.
    apply list_elem_of_In, list_elem_of_fmap in Hlisted as (m & -> & Hm).
    apply list_elem_of_In, Hsound in Hm as (d & Hd & Hfree & ->).
    unfold UserRepository.is_blocked, UserRepository.get_by_id,
      UserRepository.find_one in Hblocked.
    destruct (find _ (users db)) as [d'|] eqn:Hfind; [|done].
    simpl in Hblocked.
    apply find_some in Hfind as [Hd' Hid]. apply Z.eqb_eq in Hid. simpl in Hid.
    assert (d = d'); [|congruence].
    apply list_elem_of_In in Hd, Hd'.
    apply list_elem_of_lookup in Hd as [i Hi], Hd' as [j Hj].
    assert (i = j) as ->; [|congruence].
    apply (NoDup_lookup _ i j (user_id d) Hnodup);
      rewrite list_lookup_fmap; [by rewrite Hi|rewrite Hj; simpl; congruence].
Qed.

Lemma get_all_active_sound_witness :
  ~ In 101 (user_id <$> UserRepository.get_all_active
              {| users := [Scenario.doc 100 false; Scenario.doc 101 true];
                 messages := [] |}).
Proof.
  apply (proj2 (proj2 (get_all_active_sound
           {| users := [Scenario.doc 100 false; Scenario.doc 101 true];
              messages := [] |}))).
  - apply NoDup_cons. split; [|apply NoDup_singleton].
    rewrite list_elem_of_singleton. done.
  - reflexivity.
Defined.

(** ** Who gets a message *)

Lemma recipients_app (t u : list effect) :
  recipients (t ++ u) = recipients t ++ recipients u.
Proof. unfold recipients. apply omap_app. Qed.

Lemma recipients_cons (e : effect) (t : list effect) :
  recipients (e :: t)
  = match e with
    | SendMessage c _ _ _ => c :: recipients t
    | _ => recipients t
    end.
Proof. by destruct e. Qed.

Lemma recipients_quiet (t : list effect) (e : effect) :
  is_send e = false -> recipients (t ++ [e]) = recipients t.
Proof.
  intros He. rewrite recipients_app, recipients_cons.
  destruct e; [done|..]; apply app_nil_r.
Qed.

Lemma recipients_sends (t : list effect) : recipients (sends t) = recipients t.
Proof.
  induction t as [|e t IH]; [done|].
  destruct e; rewrite recipients_cons; try done.
  change (sends (SendMessage chat_id text0 reply_markup raised :: t))
    with (SendMessage chat_id text0 reply_markup raised :: sends t).
  by rewrite recipients_cons, IH.
Qed.

Lemma recipients_attempts (msg : string) (kb : option markup)
    (tries : list effect) (chats : list Z) :
  Forall2 (attempt msg kb) tries chats -> recipients tries = chats.
Proof.
  induction 1 as [|e c tries chats [r ->] _ IH]; [done|].
  by rewrite recipients_cons, IH.
Qed.

(** X14: a message that the rate limiter denies is dropped: the sender gets
    the notice with the number of seconds to wait; nothing is stored, the
    sender is not registered, nothing is sent to an admin, and the window
    keeps only its pruned timestamps. *)
Theorem throttled_message_is_dropped (cfg : Config) (env : Env) (update : Update)
    (w : World) (wait : Z) :
  let user := effective_user update in
  let kept :=
    filter (fun t => ~ (t <= time_now env - inject_Z (RATE_LIMIT_WINDOW cfg))%Q)
           (RateLimiter.window (_user_messages w) (id user)) in
  AdminManager.is_admin (_admins w) (id user) = false ->
  UserRepository.is_blocked (db w) (id user) = false ->
  snd (RateLimiter.check_rate_limit cfg (time_now env) (_user_messages w) (id user))
    = Ret (false, wait) ->
  exists w' : World,
    handle_user_message cfg env update w = (w', Ret None)
    /\ trace w' = trace w ++
         [ReplyText ("Please slow down! Wait " +:+ str_int wait
                     +:+ " seconds before sending another message.") None]
    /\ db w' = db w
    /\ _admins w' = _admins w
    /\ _user_messages w' = <[id user := kept]> (_user_messages w).
Proof.
  intros user kept Hadmin Hblocked Hrate.
  unfold handle_user_message. fold user. rewrite Hadmin, Hblocked.
  destruct (RateLimiter.check_rate_limit _ _ _ _) as [m r] eqn:Hcall.
  simpl in Hrate. subst r.
  apply check_rate_limit_denied_inv in Hcall as [-> _]. fold kept.
  cbn [negb]. eexists. split; [reflexivity|]. by repeat split.
Qed.

Lemma throttled_message_is_dropped_witness :
  exists w' : World,
    handle_user_message default_config (Scenario.env [])
      (Scenario.says Scenario.alice "hello")
      (set_user_messages (Scenario.world [])
         {[100 := [0%Q; 0%Q; 0%Q; 0%Q; 0%Q]]}) = (w', Ret None)
    /\ trace w' =
         [ReplyText "Please slow down! Wait 61 seconds before sending another message."
                    None]
    /\ messages (db w') = [].
Proof.
  destruct (throttled_message_is_dropped default_config (Scenario.env [])
              (Scenario.says Scenario.alice "hello")
              (set_user_messages (Scenario.world [])
                 {[100 := [0%Q; 0%Q; 0%Q; 0%Q; 0%Q]]}) 61
              ltac:(vm_compute; reflexivity) ltac:(vm_compute; reflexivity)
              ltac:(vm_compute; reflexivity))
    as (w' & Hrun & Htrace & Hdb & _).
  exists w'. split; [exact Hrun|]. split; [exact Htrace|]. by rewrite Hdb.
Defined.

(** X15: a user message is delivered to the admins and to nobody else: the
    handler tries each admin once when the sender is no admin, is not
    blocked and is let in by the rate limiter, and tries nobody in every
    other case. *)
Theorem relay_reaches_admins_only (cfg : Config) (env : Env) (update : Update)
    (w : World) :
  let user := effective_user update in
  let relayed :=
    negb (AdminManager.is_admin (_admins w) (id user))
    && negb (UserRepository.is_blocked (db w) (id user))
    && match snd (RateLimiter.check_rate_limit cfg (time_now env)
                    (_user_messages w) (id user)) with
       | Ret (allowed, _) => allowed
       | Raise _ => false
       end in
  recipients (trace (fst (handle_user_message cfg env update w)))
  = recipients (trace w) ++ (if relayed then elements (_admins w) else []).
Proof.
  intros user relayed. unfold relayed, handle_user_message. fold user.
  destruct (AdminManager.is_admin (_admins w) (id user)); cbn [negb andb fst];
    [by rewrite app_nil_r|].
  destruct (UserRepository.is_blocked (db w) (id user)); cbn [negb andb fst].
  { unfold reply_text, emit. cbn [trace set_trace].
    rewrite recipients_quiet by done. by rewrite app_nil_r. }
  destruct (RateLimiter.check_rate_limit _ _ _ _) as [m [[[] wait]|e]];
    cbn [negb andb fst snd].
  - set (w1 := save_message _ _ _ _ _ _).
    destruct (fan_out_spec env (id user)
                (format_message_for_admin user
                   (or_else (text update) "[Media message]"))
                (AdminManager.get_admins (_admins w1)) w1 0)
      as (fan & -> & Hatt & _).
    apply recipients_attempts in Hatt. rewrite recipients_sends in Hatt.
    assert (recipients (trace w1) = recipients (trace w)) as Hw1.
    { unfold w1, save_message, create_or_update, emit.
      destruct (UserRepository.create_or_update _ _ _ _ _ _) as [d ?].
      cbn [trace set_trace set_db set_user_messages].
      by rewrite !recipients_quiet. }
    destruct (_ >? 0); unfold reply_text, emit; cbn [fst trace set_trace];
      rewrite recipients_quiet by done; by rewrite recipients_app, Hatt, Hw1.
  - unfold reply_text, emit. cbn [trace set_trace set_user_messages].
    rewrite recipients_quiet by done. by rewrite app_nil_r.
  - cbn [trace set_user_messages]. by rewrite app_nil_r.
Qed.

(** ** Admin-only actions *)

(** X16: whatever a sender who is no admin triggers among the admin-only
    handlers (the dashboard, the user list, the admin menu, the entry and
    the text step of the broadcast flow, [/addadmin], [/removeadmin], the
    Reply, Block and unblock callbacks), the admins, the store, the rate
    windows and the conversation data stay as they were and nothing is
    delivered to anyone. *)
Theorem non_admin_changes_nothing (cfg : Config) (int : string -> res Z)
    (args : list string) (env : Env) (update : Update) (w : World) (h : handler) :
  AdminManager.is_admin (_admins w) (id (effective_user update)) = false ->
  In h [dashboard_handler; users_handler; admin_menu_handler cfg;
        broadcast_handler; receive_broadcast_message;
        add_admin_command int args; remove_admin_command int args;
        reply_callback; block_callback; unblock_callback] ->
  let w' := fst (h env update w) in
  _admins w' = _admins w /\ db w' = db w
  /\ _user_messages w' = _user_messages w /\ user_data w' = user_data w
  /\ sends (trace w') = sends (trace w).
Proof.
  intros Hadmin Hin w'. unfold w'. clear w'. simpl in Hin.
  assert (sends (trace w ++ [Answer]) = sends (trace w)) as Hanswer.
  { rewrite sends_app. apply app_nil_r. }
  repeat (destruct Hin as [<-|Hin]);
    [unfold dashboard_handler | unfold users_handler
    | unfold admin_menu_handler | unfold broadcast_handler
    | unfold receive_broadcast_message | unfold add_admin_command
    | unfold remove_admin_command | unfold reply_callback
    | unfold block_callback | unfold unblock_callback | destruct Hin];
    unfold check_admin; cbn [_admins emit set_trace]; rewrite Hadmin;
    cbn [negb fst]; unfold reply_text, emit; cbn [_admins db _user_messages
      user_data trace set_trace]; rewrite ?sends_reply, ?Hanswer; done.
Qed.

Lemma non_admin_changes_nothing_witness :
  let w := Scenario.world [Scenario.doc 100 false] in
  _admins (fst (remove_admin_command int_of_str ["1"] (Scenario.env [])
                  (Scenario.says Scenario.alice "/removeadmin 1") w))
  = _admins w.
Proof.
  exact (proj1 (non_admin_changes_nothing default_config int_of_str ["1"%string]
                  (Scenario.env []) (Scenario.says Scenario.alice "/removeadmin 1")
                  (Scenario.world [Scenario.doc 100 false])
                  (remove_admin_command int_of_str ["1"%string])
                  ltac:(vm_compute; reflexivity)
                  ltac:(do 6 right; left; reflexivity))).
Defined.

(** X17: [/addadmin] and [/removeadmin] used by an admin.  Without an
    argument, or with one that [int] rejects, the admins stay as they were
    and the sender is told the usage, or that the id is invalid; and
    whatever the argument, [/removeadmin] leaves at least one admin. *)
Theorem admin_commands_edges (int : string -> res Z) (args : list string)
    (env : Env) (update : Update) (w : World) :
  AdminManager.is_admin (_admins w) (id (effective_user update)) = true ->
  let added := fst (add_admin_command int args env update w) in
  let removed := fst (remove_admin_command int args env update w) in
  (args = [] ->
   added = reply_text w "Usage: /addadmin <user_id>"
   /\ removed = reply_text w "Usage: /removeadmin <user_id>")
  /\ (forall arg rest msg,
        args = arg :: rest -> int arg = Raise (ValueError msg) ->
        added = reply_text w "Invalid user ID."
        /\ removed = reply_text w "Invalid user ID.")
  /\ _admins removed <> ∅
  /\ _admins w ⊆ _admins added.
Proof.
  intros Hadmin added removed. unfold added, removed, add_admin_command,
    remove_admin_command, check_admin. rewrite Hadmin. cbn [negb].
  assert (_admins w <> ∅) as Hne.
  { apply bool_decide_eq_true in Hadmin. intros E. rewrite E in Hadmin.
    by apply not_elem_of_empty in Hadmin. }
  split; [by intros ->|]. split; [by intros arg rest msg -> ->|].
  destruct args as [|arg rest]; [done|].
  split.
  - destruct (int arg) as [n|[]]; try done.
    pose proof (step_nonempty (_admins w) (AdminManager.Remove n) Hne) as Hstep.
    simpl in Hstep.
    destruct (AdminManager.remove_admin (_admins w) n) as [s []]; exact Hstep.
  - destruct (int arg) as [n|[]]; try done.
    unfold AdminManager.add_admin.
    destruct (negb _); cbn [fst _admins set_admins reply_text emit set_trace];
      [apply union_subseteq_l|done].
Qed.

Lemma admin_commands_edges_witness :
  let w := Scenario.world [] in
  _admins (fst (remove_admin_command int_of_str ["2"] (Scenario.env [])
                  (Scenario.says Scenario.admin1 "/removeadmin 2") w)) <> ∅.
Proof.
  exact (proj1 (proj2 (proj2 (admin_commands_edges int_of_str ["2"%string]
           (Scenario.env []) (Scenario.says Scenario.admin1 "/removeadmin 2")
           (Scenario.world []) ltac:(vm_compute; reflexivity))))).
Defined.

(** X18: an admin presses Block on user [target].  The admin is told
    "User <target> blocked." in every case.  If the user has a document,
    the next message of that user (who is no admin) gets the blocked notice
    and nothing else; if the store has no document of that id, nothing was
    written. *)
Theorem block_button_effect (env : Env) (update : Update) (w : World) (target : Z) :
  AdminManager.is_admin (_admins w) (id (effective_user update)) = true ->
  callback_target (data update) = Ret target ->
  let w' := fst (block_callback env update w) in
  trace w' = trace w ++
    [Answer; ReplyText ("User " +:+ str_int target +:+ " blocked.") None]
  /\ match UserRepository.find_one (db w) target with
     | Some _ =>
         forall (cfg : Config) (env2 : Env) (update2 : Update),
           id (effective_user update2) = target ->
           AdminManager.is_admin (_admins w) target = false ->
           handle_user_message cfg env2 update2 w'
           = (reply_text w' "You have been blocked from using this bot.", Ret None)
     | None => db w' = db w
     end.
Proof.
  intros Hadmin Htarget w'. unfold w', block_callback.
  cbn [_admins emit set_trace]. rewrite Hadmin, Htarget. cbn [negb fst].
  split; [unfold reply_text, emit; cbn [trace set_trace set_db];
          by rewrite <- app_assoc|].
  destruct (UserRepository.find_one (db w) target) as [d|] eqn:Hfind.
  - intros cfg env2 update2 Hsender Hnoadmin.
    unfold handle_user_message. rewrite Hsender.
    cbn [_admins db reply_text emit set_trace set_db]. rewrite Hnoadmin.
    unfold UserRepository.is_blocked, UserRepository.get_by_id,
      UserRepository.find_one, UserRepository.block_user in *. cbn [fst users].
    by rewrite (find_set_blocked_same target true (users (db w)) d Hfind).
  - cbn [db reply_text emit set_trace set_db]. unfold UserRepository.block_user.
    unfold UserRepository.find_one in Hfind. cbn [fst].
    rewrite set_blocked_unknown by done. by destruct (db w).
Qed.

Lemma block_button_effect_witness :
  let w := fst (block_callback (Scenario.env [])
                  (Scenario.presses Scenario.admin1 "block_100")
                  (Scenario.world [Scenario.doc 100 false])) in
  handle_user_message default_config (Scenario.env [])
    (Scenario.says Scenario.alice "hello") w
  = (reply_text w "You have been blocked from using this bot.", Ret None).
Proof.
  exact (proj2 (block_button_effect (Scenario.env [])
                  (Scenario.presses Scenario.admin1 "block_100")
                  (Scenario.world [Scenario.doc 100 false]) 100
                  ltac:(vm_compute; reflexivity) ltac:(vm_compute; reflexivity))
           default_config (Scenario.env [])
           (Scenario.says Scenario.alice "hello") eq_refl
           ltac:(vm_compute; reflexivity)).
Defined.

(** ** Broadcast: who is reached, and when nobody is *)

(** X19: whatever the button pressed and whatever the stored body, the
    broadcast handler delivers to at most 1000 chats, each the id of a
    stored user who is not blocked. *)
Theorem broadcast_reaches_unblocked_users_only (env : Env) (update : Update)
    (w : World) :
  exists reached : list Z,
    recipients (trace (fst (broadcast_confirm_callback env update w)))
    = recipients (trace w) ++ reached
    /\ (length reached <= 1000)%nat
    /\ forall c, In c reached ->
         exists d, In d (users (db w)) /\ user_id d = c /\ is_blocked d = false.
Proof.
  unfold broadcast_confirm_callback.
  assert (forall x, recipients (trace w ++ [Answer; EditText x]) = recipients (trace w))
    as Hquiet.
  { intros x. rewrite recipients_app. apply app_nil_r. }
  case_bool_decide.
  { exists []. split; [|split; [simpl; lia|by intros c []]].
    unfold edit_text, pop_broadcast_message, emit.
    cbn [fst trace set_trace set_user_data].
    rewrite <- app_assoc. simpl. by rewrite Hquiet, app_nil_r. }
  change (get_user_data (emit w Answer) (id (effective_user update)))
    with (get_user_data w (id (effective_user update))).
  destruct (truthy _); cbn [negb].
  - set (w1 := edit_text _ _).
    destruct (broadcast_loop_spec env
                ("Announcement:" +:+ nl +:+ nl
                 +:+ str_opt (broadcast_message
                       (get_user_data w (id (effective_user update)))))
                (UserRepository.get_all_active (db (emit w Answer))) w1 0 0)
      as (tries & -> & Hatt & _).
    apply recipients_attempts in Hatt.
    exists (user_id <$> UserRepository.get_all_active (db w)).
    split; [|split].
    + unfold pop_broadcast_message, reply_text, emit.
      cbn [fst trace set_trace set_user_data].
      rewrite recipients_quiet by done. rewrite recipients_app, Hatt.
      unfold w1, edit_text, emit. cbn [trace set_trace].
      rewrite <- app_assoc. simpl. by rewrite Hquiet.
    + rewrite length_fmap. apply (proj1 (get_all_active_bound (db w))).
    + intros c Hc.
      apply list_elem_of_In, list_elem_of_fmap in Hc as (m & -> & Hm).
      apply list_elem_of_In, (proj2 (get_all_active_bound (db w))) in Hm
        as (d & Hd & Hfree & ->).
      by exists d.
  - exists []. split; [|split; [simpl; lia|by intros c []]].
    unfold edit_text, emit. cbn [fst trace set_trace].
    rewrite <- app_assoc. simpl. by rewrite Hquiet, app_nil_r.
Qed.

(** The reply conversation takes no press on the Cancel or Confirm button
    of a broadcast, in whatever state it is. *)
Lemma reply_conv_skips_broadcast_press (env : Env) (update : Update) (w : World) :
  is_broadcast_data (data update) = true ->
  reply_conv_handle CallbackQuery env update w = None.
Proof.
  intros Hdata. unfold reply_conv_handle.
  destruct (reply_conv w !! id (effective_user update)) as [[]|]; [done..|].
  unfold is_broadcast_data in Hdata.
  apply orb_true_iff in Hdata as [Hdata|Hdata];
    apply bool_decide_eq_true_1 in Hdata; by rewrite Hdata.
Qed.

(** A cancellation that reaches the broadcast conversation. *)
Lemma broadcast_conv_cancelled (ev : event) (env : Env) (update : Update)
    (w : World) (st : conv_state) :
  let me := id (effective_user update) in
  broadcast_conv w !! me = Some st ->
  (ev = CancelCommand /\ reply_conv w !! me = None)
  \/ (ev = CallbackQuery /\ st = CONFIRM_BROADCAST
      /\ data update = "broadcast_cancel"%string) ->
  exists w' : World,
    conversations_handle ev env update w = Some (w', Ret (Some END))
    /\ sends (trace w') = sends (trace w)
    /\ broadcast_conv w' !! me = None
    /\ broadcast_message (get_user_data w' me) = None
    /\ db w' = db w.
Proof.
  intros me Hconv Hcancel. unfold conversations_handle.
  assert (reply_conv_handle ev env update w = None) as ->.
  { destruct Hcancel as [[-> Hidle]|(-> & _ & Hdata')].
    - unfold reply_conv_handle. fold me. by rewrite Hidle.
    - apply reply_conv_skips_broadcast_press. by rewrite Hdata'. }
  unfold broadcast_conv_handle. fold me. rewrite Hconv.
  destruct Hcancel as [[-> _]|(-> & -> & Hdata')].
  - destruct st;
      unfold in_broadcast_conv, cancel_broadcast, pop_broadcast_message,
        reply_text, emit; fold me;
      (eexists; split; [reflexivity|]);
      cbn [trace db broadcast_conv set_broadcast_conv set_trace set_user_data
           update_state];
      (split; [apply sends_reply|]); (split; [apply lookup_delete_eq|]);
      (split; [|done]); unfold get_user_data; simpl;
      by rewrite lookup_insert_eq.
  - replace (is_broadcast_data (data update)) with true
      by (by rewrite Hdata').
    unfold in_broadcast_conv, broadcast_confirm_callback. fold me.
    rewrite bool_decide_eq_true_2 by done.
    unfold pop_broadcast_message, edit_text, emit.
    eexists. split; [reflexivity|].
    cbn [trace db broadcast_conv set_broadcast_conv set_trace set_user_data
         update_state].
    split.
    { rewrite <- app_assoc, sends_app. simpl. apply app_nil_r. }
    split; [apply lookup_delete_eq|].
    split; [|done]. unfold get_user_data. simpl. by rewrite lookup_insert_eq.
Qed.

(** X20: through the handler order of [main], a broadcast is cancelled by
    the Cancel button at the confirmation, whatever else the admin is doing,
    and by [/cancel] at any step when the admin is not also in the reply
    conversation: the broadcast conversation ends, the body is forgotten,
    nothing is written and nothing is delivered.  When the admin is also in
    the reply conversation, [/cancel] goes to [reply_conv], which is
    registered first: the bot answers "Cancelled.", the reply conversation
    ends, and the broadcast conversation keeps its state and its body; a
    second [/cancel] then cancels the broadcast. *)
Theorem cancelled_broadcast_delivers_nothing (ev : event) (env : Env)
    (update : Update) (w : World) (st : conv_state) :
  let me := id (effective_user update) in
  broadcast_conv w !! me = Some st ->
  ((ev = CancelCommand /\ reply_conv w !! me = None)
   \/ (ev = CallbackQuery /\ st = CONFIRM_BROADCAST
       /\ data update = "broadcast_cancel"%string) ->
   exists w' : World,
     conversations_handle ev env update w = Some (w', Ret (Some END))
     /\ sends (trace w') = sends (trace w)
     /\ broadcast_conv w' !! me = None
     /\ broadcast_message (get_user_data w' me) = None
     /\ db w' = db w)
  /\ (forall s : conv_state, reply_conv w !! me = Some s ->
      exists w1 w2 : World,
        conversations_handle CancelCommand env update w
          = Some (w1, Ret (Some END))
        /\ trace w1 = trace w ++ [ReplyText "Cancelled." None]
        /\ reply_conv w1 !! me = None
        /\ reply_to_user (get_user_data w1 me) = None
        /\ broadcast_conv w1 !! me = Some st
        /\ broadcast_message (get_user_data w1 me)
           = broadcast_message (get_user_data w me)
        /\ conversations_handle CancelCommand env update w1
           = Some (w2, Ret (Some END))
        /\ sends (trace w2) = sends (trace w)
        /\ broadcast_conv w2 !! me = None
        /\ broadcast_message (get_user_data w2 me) = None
        /\ db w2 = db w).
Proof.
  intros me Hconv. split; [by apply broadcast_conv_cancelled|].
  intros s Hreply.
  set (w1 := set_reply_conv
               (reply_text
                  (set_user_data w me
                     {| reply_to_user := None;
                        broadcast_message := broadcast_message (get_user_data w me) |})
                  "Cancelled.")
               (delete me (reply_conv w))).
  assert (conversations_handle CancelCommand env update w
          = Some (w1, Ret (Some END))) as Hrun.
  { unfold conversations_handle, reply_conv_handle. fold me. rewrite Hreply.
    by destruct s. }
  assert (reply_conv w1 !! me = None) as Hidle by apply lookup_delete_eq.
  assert (broadcast_conv w1 !! me = Some st) as Hconv1 by exact Hconv.
  assert (get_user_data w1 me
          = {| reply_to_user := None;
               broadcast_message := broadcast_message (get_user_data w me) |})
    as Hdata by apply get_user_data_set.
  destruct (broadcast_conv_cancelled CancelCommand env update w1 st Hconv1
              (or_introl (conj eq_refl Hidle)))
    as (w2 & Hrun2 & Hsends2 & Hconv2 & Hbody2 & Hdb2).
  exists w1, w2. rewrite Hdata.
  repeat split; try done.
  rewrite Hsends2. apply sends_reply.
Qed.

Lemma cancelled_broadcast_delivers_nothing_witness :
  (exists w' : World,
     conversations_handle CallbackQuery (Scenario.env [])
       (Scenario.presses Scenario.admin1 "broadcast_cancel")
       (Scenario.confirming (Scenario.crowd 3 100) "news")
     = Some (w', Ret (Some END))
     /\ sends (trace w') = [])
  /\ (exists w1 w2 : World,
        conversations_handle CancelCommand (Scenario.env [])
          (Scenario.says Scenario.admin1 "/cancel")
          (Scenario.confirming_and_replying (Scenario.crowd 3 100) "news" 100)
        = Some (w1, Ret (Some END))
        /\ broadcast_conv w1 !! 1 = Some CONFIRM_BROADCAST
        /\ broadcast_message (get_user_data w1 1) = Some "news"%string
        /\ conversations_handle CancelCommand (Scenario.env [])
             (Scenario.says Scenario.admin1 "/cancel") w1
           = Some (w2, Ret (Some END))
        /\ broadcast_conv w2 !! 1 = None).
Proof.
  split.
  - destruct (proj1 (cancelled_broadcast_delivers_nothing CallbackQuery
                       (Scenario.env [])
                       (Scenario.presses Scenario.admin1 "broadcast_cancel")
                       (Scenario.confirming (Scenario.crowd 3 100) "news")
                       CONFIRM_BROADCAST ltac:(vm_compute; reflexivity))
                ltac:(right; repeat split; reflexivity))
      as (w' & Hrun & Hsends & _).
    exists w'. split; [exact Hrun|exact Hsends].
  - destruct (proj2 (cancelled_broadcast_delivers_nothing CancelCommand
                       (Scenario.env [])
                       (Scenario.says Scenario.admin1 "/cancel")
                       (Scenario.confirming_and_replying (Scenario.crowd 3 100)
                          "news" 100)
                       CONFIRM_BROADCAST ltac:(vm_compute; reflexivity))
                WAITING_FOR_REPLY ltac:(vm_compute; reflexivity))
      as (w1 & w2 & Hrun & _ & _ & _ & Hconv1 & Hbody1 & Hrun2 & _ & Hconv2 & _).
    exists w1, w2. split; [exact Hrun|]. split; [exact Hconv1|].
    split; [exact Hbody1|]. split; [exact Hrun2|exact Hconv2].
Defined.

(** ** Callback data: what the keyboards write and what the handlers read *)

Ltac eval_digit :=
  match goal with
  | |- context [digit ?c] =>
      let v := eval vm_compute in (digit c) in change (digit c) with v
  end.

Lemma digits_of_uint_acc (d : Decimal.uint) :
  forall acc : positive,
    digits (NilEmpty.string_of_uint d) (Z.pos acc)
    = Some (Z.pos (Pos.of_uint_acc d acc)).
Proof.
  induction d; intros acc; [done|..];
    cbn [NilEmpty.string_of_uint digits Pos.of_uint_acc]; eval_digit;
    cbv iota; rewrite <- IHd; f_equal; lia.
Qed.

Lemma digits_of_uint (d : Decimal.uint) :
  digits (NilEmpty.string_of_uint d) 0 = Some (Z.of_N (Pos.of_uint d)).
Proof.
  induction d; [done|exact IHd|..];
    cbn [NilEmpty.string_of_uint digits Pos.of_uint Z.of_N]; eval_digit;
    cbv iota; rewrite <- digits_of_uint_acc; f_equal.
Qed.

Lemma split_of_uint (d : Decimal.uint) :
  split "_" (NilEmpty.string_of_uint d) = [NilEmpty.string_of_uint d].
Proof.
  induction d; [done|..]; cbn [NilEmpty.string_of_uint split];
    rewrite IHd; reflexivity.
Qed.

(** Printing an id that is not negative and reading it back. *)
Lemma int_of_str_str_int (n : Z) :
  0 <= n -> int_of_str (str_int n) = Ret n /\ split "_" (str_int n) = [str_int n].
Proof.
  intros Hn. unfold str_int. destruct n as [|p|p]; [done| |lia].
  cbn [Z.to_int NilZero.string_of_int]. unfold NilZero.string_of_uint.
  pose proof (Unsigned.to_uint_nonnil p) as Hnil.
  pose proof (digits_of_uint (Pos.to_uint p)) as Hdigits.
  rewrite Unsigned.of_to in Hdigits.
  pose proof (split_of_uint (Pos.to_uint p)) as Hsplit.
  destruct (Pos.to_uint p) eqn:E; [done|..];
    (split; [|exact Hsplit]); unfold int_of_str;
    cbn [NilEmpty.string_of_uint] in *; by rewrite Hdigits.
Qed.

Lemma callback_target_of_button (name : string) (n : Z) :
  split "_" name = [name] -> 0 <= n ->
  split "_" (name +:+ "_" +:+ str_int n) = [name; str_int n].
Proof.
  intros Hname Hn. destruct (int_of_str_str_int n Hn) as [_ Hsplit].
  revert Hname. generalize (str_int n) Hsplit. clear. intros s Hs.
  assert (forall a : string, split "_" a <> []) as Hne.
  { intros a. induction a as [|c a IH]; [done|]. simpl.
    destruct (Ascii.eqb c "_"); [done|]. by destruct (split "_" a). }
  induction name as [|c name IH].
  - intros _. change (split "_" ("" +:+ "_" +:+ s)) with ("" :: split "_" s).
    by rewrite Hs.
  - change (split "_" (String c name))
      with (if Ascii.eqb c "_" then "" :: split "_" name
            else match split "_" name with
                 | p :: ps => String c p :: ps
                 | [] => [String c ""]
                 end).
    change (split "_" (String c name +:+ "_" +:+ s))
      with (if Ascii.eqb c "_" then "" :: split "_" (name +:+ "_" +:+ s)
            else match split "_" (name +:+ "_" +:+ s) with
                 | p :: ps => String c p :: ps
                 | [] => [String c ""]
                 end).
    destruct (Ascii.eqb c "_") eqn:E; [done|].
    destruct (split "_" name) as [|p ps] eqn:Hp; [by destruct (Hne name)|].
    intros [= -> ->]. by rewrite IH.
Qed.

(** X21: the callback data a keyboard writes for a user id that is not
    negative reads back as that id: each button of the reply keyboard
    carries the id of the sender, and its data are accepted by the patterns
    of their handlers.  Through the handler order of [main], a press on
    Reply by an admin who is not in the reply conversation starts it, and
    the admin is then waiting to reply to that very user; a press by a user
    who is in the reply conversation already is taken by no handler of
    [main], and the pending target stays as it was. *)
Theorem reply_keyboard_round_trip (env : Env) (update : Update) (w : World)
    (uid : Z) :
  let me := id (effective_user update) in
  0 <= uid ->
  (forall data, In data (callback_data (get_reply_keyboard uid)) ->
                callback_target data = Ret uid)
  /\ is_reply_data ("reply_" +:+ str_int uid) = true
  /\ has_pattern "block" ("block_" +:+ str_int uid) = true
  /\ has_pattern "history" ("history_" +:+ str_int uid) = true
  /\ (AdminManager.is_admin (_admins w) me = true ->
      data update = "reply_" +:+ str_int uid ->
      reply_conv w !! me = None ->
      exists w' : World,
        conversations_handle CallbackQuery env update w
          = Some (w', Ret (Some WAITING_FOR_REPLY))
        /\ reply_conv w' !! me = Some WAITING_FOR_REPLY
        /\ reply_to_user (get_user_data w' me) = Some uid)
  /\ (forall s : conv_state,
      data update = "reply_" +:+ str_int uid ->
      reply_conv w !! me = Some s ->
      conversations_handle CallbackQuery env update w = None
      /\ has_pattern "block" (data update) = false
      /\ has_pattern "unblock" (data update) = false
      /\ has_pattern "history" (data update) = false).
Proof.
  intros me Huid. destruct (int_of_str_str_int uid Huid) as [Hint _].
  pose proof (callback_target_of_button "reply" uid eq_refl Huid) as Hreply.
  pose proof (callback_target_of_button "block" uid eq_refl Huid) as Hblock.
  pose proof (callback_target_of_button "history" uid eq_refl Huid) as Hhistory.
  change ("reply" +:+ "_" +:+ str_int uid) with ("reply_" +:+ str_int uid) in Hreply.
  change ("block" +:+ "_" +:+ str_int uid) with ("block_" +:+ str_int uid) in Hblock.
  change ("history" +:+ "_" +:+ str_int uid)
    with ("history_" +:+ str_int uid) in Hhistory.
  assert (callback_target ("reply_" +:+ str_int uid) = Ret uid) as Htarget.
  { unfold callback_target. by rewrite Hreply. }
  assert (is_reply_data ("reply_" +:+ str_int uid) = true) as Hentry.
  { unfold is_reply_data. by rewrite Hreply, Hint. }
  split; [|split; [|split; [|split; [|split]]]].
  - intros data [<-|[<-|[<-|[]]]]; unfold callback_target;
      by rewrite ?Hreply, ?Hblock, ?Hhistory.
  - exact Hentry.
  - unfold has_pattern. by rewrite Hblock, Hint.
  - unfold has_pattern. by rewrite Hhistory, Hint.
  - intros Hadmin Hdata Hidle.
    unfold conversations_handle, reply_conv_handle. fold me.
    rewrite Hidle, Hdata, Hentry.
    unfold in_reply_conv, reply_callback. fold me.
    cbn [_admins emit set_trace]. rewrite Hadmin, Hdata, Htarget. cbn [negb].
    eexists. split; [reflexivity|].
    unfold reply_text, emit, get_user_data.
    cbn [user_data reply_conv set_trace set_user_data set_reply_conv update_state].
    split; [apply lookup_insert_eq|]. by rewrite lookup_insert_eq.
  - intros s Hdata Hbusy. rewrite Hdata. split; [|split; [|split]].
    + unfold conversations_handle, reply_conv_handle. fold me. rewrite Hbusy.
      unfold broadcast_conv_handle. fold me.
      assert (is_broadcast_data (data update) = false) as Hother.
      { rewrite Hdata. unfold is_broadcast_data.
        by rewrite !bool_decide_eq_false_2. }
      rewrite Hother.
      destruct s; by destruct (broadcast_conv w !! me) as [[]|].
    + unfold has_pattern. by rewrite Hreply.
    + unfold has_pattern. by rewrite Hreply.
    + unfold has_pattern. by rewrite Hreply.
Qed.

Lemma reply_keyboard_round_trip_witness :
  (exists w' : World,
     conversations_handle CallbackQuery (Scenario.env [])
       (Scenario.presses Scenario.admin1 ("reply_" +:+ str_int 100))
       (Scenario.world [Scenario.doc 100 false])
     = Some (w', Ret (Some WAITING_FOR_REPLY))
     /\ reply_conv w' !! 1 = Some WAITING_FOR_REPLY
     /\ reply_to_user (get_user_data w' 1) = Some 100)
  /\ conversations_handle CallbackQuery (Scenario.env [])
       (Scenario.presses Scenario.admin1 ("reply_" +:+ str_int 200))
       (Scenario.replying [Scenario.doc 100 false] 100)
     = None.
Proof.
  split.
  - exact (proj1 (proj2 (proj2 (proj2 (proj2
             (reply_keyboard_round_trip (Scenario.env [])
                (Scenario.presses Scenario.admin1 ("reply_" +:+ str_int 100))
                (Scenario.world [Scenario.doc 100 false]) 100 ltac:(lia))))))
             ltac:(vm_compute; reflexivity) eq_refl
             ltac:(vm_compute; reflexivity)).
  - exact (proj1 (proj2 (proj2 (proj2 (proj2 (proj2
             (reply_keyboard_round_trip (Scenario.env [])
                (Scenario.presses Scenario.admin1 ("reply_" +:+ str_int 200))
                (Scenario.replying [Scenario.doc 100 false] 100) 200
                ltac:(lia))))))
             WAITING_FOR_REPLY eq_refl ltac:(vm_compute; reflexivity))).
Defined.

(** X22: no keyboard the bot builds carries callback data that the pattern
    of [unblock_callback] accepts: the unblock handler is never reached
    from a button of the bot. *)
Theorem no_button_unblocks (uid : Z) (data : string) :
  In data (callback_data (get_reply_keyboard uid)
           ++ callback_data get_confirm_broadcast_keyboard) ->
  has_pattern "unblock" data = false.
Proof.
  intros [<-|[<-|[<-|[<-|[<-|[]]]]]]; [| | |done|done]; unfold has_pattern;
    cbn [snd].
  - change (split "_" ("reply_" +:+ str_int uid))
      with ("reply" :: split "_" (str_int uid)).
    by destruct (split "_" (str_int uid)) as [|q [|r ?]].
  - change (split "_" ("block_" +:+ str_int uid))
      with ("block" :: split "_" (str_int uid)).
    by destruct (split "_" (str_int uid)) as [|q [|r ?]].
  - change (split "_" ("history_" +:+ str_int uid))
      with ("history" :: split "_" (str_int uid)).
    by destruct (split "_" (str_int uid)) as [|q [|r ?]].
Qed.

Lemma no_button_unblocks_witness :
  has_pattern "unblock" ("block_" +:+ str_int 100) = false.
Proof.
  apply (no_button_unblocks 100). right. left. reflexivity.
Defined.

(** ** Start, and the reply flow *)

(** X23: [/start] registers the sender under the names Telegram gives,
    keeps the blocked flag the sender had (a blocked user stays blocked and
    is greeted all the same), greets with the admin menu exactly when the
    sender is an admin, and touches neither the messages, the rate windows
    nor the admins. *)
Theorem start_registers_the_sender (env : Env) (update : Update) (w : World) :
  let user := effective_user update in
  let w' := fst (start_command env update w) in
  UserRepository.get_by_id (db w') (id user)
  = Some {| user_id := id user; username := tg_username user;
            first_name := tg_first_name user; last_name := tg_last_name user;
            is_blocked := UserRepository.is_blocked (db w) (id user);
            created_at := None; last_active := None |}
  /\ messages (db w') = messages (db w)
  /\ _user_messages w' = _user_messages w
  /\ _admins w' = _admins w
  /\ exists greeting : string,
       trace w' = trace w ++
         [UpsertUser (id user);
          ReplyText greeting
            (Some (if AdminManager.is_admin (_admins w) (id user)
                   then get_admin_menu else get_user_menu))].
Proof.
  intros user w'. unfold w', start_command, create_or_update. fold user.
  pose proof (create_or_update_spec (iso_now env) (db w) (id user)
                (tg_username user) (tg_first_name user) (tg_last_name user)) as H.
  destruct (UserRepository.create_or_update _ _ _ _ _ _) as [d m].
  destruct H as (_ & Hget & _ & Hmsgs).
  cbn [_admins emit set_trace set_db].
  destruct (AdminManager.is_admin (_admins w) (id user));
    unfold reply_text_with, emit;
    cbn [fst db _admins _user_messages trace set_trace set_db];
    (split; [exact Hget|]); (split; [exact Hmsgs|]); (split; [done|]);
    (split; [done|]); eexists; by rewrite <- app_assoc.
Qed.

(** X24: the reply conversation delivers to nobody but the user an admin is
    waiting to reply to: an update it takes leads to one delivery, to the
    pending target, when it is the text of the reply, and to none
    otherwise. *)
Theorem reply_flow_reaches_the_target_only (ev : event) (env : Env)
    (update : Update) (w w' : World) (r : res (option conv_state)) :
  reply_conv_handle ev env update w = Some (w', r) ->
  recipients (trace w')
  = recipients (trace w)
    ++ match ev, reply_to_user (get_user_data w (id (effective_user update))) with
       | TextMessage, Some target => [target]
       | _, _ => []
       end.
Proof.
  unfold reply_conv_handle, in_reply_conv.
  destruct (reply_conv w !! id (effective_user update)) as [[]|], ev;
    try discriminate.
  all: try (unfold cancel_reply, reply_text, emit; intros [= <- <-];
            cbn [trace set_reply_conv set_trace set_user_data];
            rewrite recipients_quiet by done; by rewrite app_nil_r).
  - unfold handle_admin_reply.
    destruct (reply_to_user _) as [target|]; [|intros [= <- <-]; simpl;
      by rewrite app_nil_r].
    unfold send_message.
    destruct (deliver env (trace w) target _) as [e|]; intros [= <- <-];
      unfold save_message, reply_text, emit;
      cbn [trace set_reply_conv set_trace set_user_data set_db];
      rewrite !recipients_quiet by done; by rewrite recipients_app.
  - destruct (is_reply_data (data update)); [|discriminate].
    unfold reply_callback. cbn [_admins emit set_trace].
    destruct (negb _).
    { intros [= <- <-]. unfold emit. cbn [trace set_reply_conv set_trace].
      rewrite recipients_quiet by done. by rewrite app_nil_r. }
    destruct (callback_target (data update)); intros [= <- <-];
      unfold reply_text, emit;
      cbn [trace set_reply_conv set_trace set_user_data];
      rewrite !recipients_quiet by done; by rewrite app_nil_r.
Qed.

Lemma reply_flow_reaches_the_target_only_witness :
  recipients
    (trace (after (Scenario.replying [Scenario.doc 100 false] 100)
              (reply_conv_handle TextMessage (Scenario.env [100])
                 (Scenario.says Scenario.admin1 "hello")
                 (Scenario.replying [Scenario.doc 100 false] 100))))
  = [100].
Proof.
  destruct (reply_conv_handle TextMessage (Scenario.env [100])
              (Scenario.says Scenario.admin1 "hello")
              (Scenario.replying [Scenario.doc 100 false] 100))
    as [[w' r]|] eqn:Hrun; [|vm_compute in Hrun; discriminate].
  exact (reply_flow_reaches_the_target_only _ _ _ _ _ _ Hrun).
Defined.

(** X25: an admin who triggers the unblock callback for [target] is told
    so, and [target] is not blocked afterwards, whether it was blocked,
    not blocked or unknown; every other user keeps the document it had. *)
Theorem unblock_callback_effect (env : Env) (update : Update) (w : World)
    (target : Z) :
  AdminManager.is_admin (_admins w) (id (effective_user update)) = true ->
  callback_target (data update) = Ret target ->
  let w' := fst (unblock_callback env update w) in
  trace w' = trace w ++
    [Answer; ReplyText ("User " +:+ str_int target +:+ " unblocked.") None]
  /\ UserRepository.is_blocked (db w') target = false
  /\ forall other, other <> target ->
       UserRepository.find_one (db w') other = UserRepository.find_one (db w) other.
Proof.
  intros Hadmin Htarget w'. unfold w', unblock_callback.
  cbn [_admins emit set_trace]. rewrite Hadmin, Htarget. cbn [negb fst].
  unfold reply_text, emit. cbn [trace db set_trace set_db].
  split; [by rewrite <- app_assoc|].
  unfold UserRepository.unblock_user, UserRepository.is_blocked,
    UserRepository.get_by_id, UserRepository.find_one. cbn [fst users].
  split.
  - destruct (find (fun d => user_id d =? target) (users (db w))) as [d|] eqn:Hfind.
    + by rewrite (find_set_blocked_same target false (users (db w)) d Hfind).
    + rewrite set_blocked_unknown by done. by rewrite Hfind.
  - intros other Hother. by apply (find_set_blocked_other target other).
Qed.

Lemma unblock_callback_effect_witness :
  UserRepository.is_blocked
    (db (fst (unblock_callback (Scenario.env [])
                (Scenario.presses Scenario.admin1 "unblock_100")
                (Scenario.world [Scenario.doc 100 true])))) 100
  = false.
Proof.
  exact (proj1 (proj2 (unblock_callback_effect (Scenario.env [])
                  (Scenario.presses Scenario.admin1 "unblock_100")
                  (Scenario.world [Scenario.doc 100 true]) 100
                  ltac:(vm_compute; reflexivity) ltac:(vm_compute; reflexivity)))).
Defined.

(** X26: through the handler order of [main], the text that an admin who
    is not also in the reply conversation types at the text step of the
    broadcast flow is the text that the confirmation sends: the text,
    whatever it is (a menu label too), goes to the broadcast conversation,
    which keeps it as the body and waits for the confirmation without
    delivering anything; a press on Confirm then delivers "Announcement:",
    an empty line and the typed text, and nothing else, to every chat it
    tries, and ends the conversation. *)
Theorem typed_body_is_broadcast (cfg : Config) (env env2 : Env)
    (update update2 : Update) (w : World) (b : string) :
  let me := id (effective_user update) in
  AdminManager.is_admin (_admins w) me = true ->
  reply_conv w !! me = None ->
  broadcast_conv w !! me = Some WAITING_FOR_BROADCAST ->
  text update = Some b -> b <> ""%string ->
  id (effective_user update2) = me ->
  data update2 = "broadcast_confirm"%string ->
  exists w1 w2 : World,
    on_text cfg env update w = (w1, Ret (Some CONFIRM_BROADCAST))
    /\ sends (trace w1) = sends (trace w)
    /\ broadcast_conv w1 !! me = Some CONFIRM_BROADCAST
    /\ broadcast_message (get_user_data w1 me) = Some b
    /\ conversations_handle CallbackQuery env2 update2 w1
       = Some (w2, Ret (Some END))
    /\ broadcast_conv w2 !! me = None
    /\ exists tries,
         sends (trace w2) = sends (trace w) ++ tries
         /\ Forall (fun e => exists chat raised,
                      e = SendMessage chat ("Announcement:" +:+ nl +:+ nl +:+ b)
                            None raised) tries.
Proof.
  intros me Hadmin Hidle Hconv Htext Hne Hsame Hdata.
  unfold on_text, reply_conv_handle. fold me. rewrite Hidle.
  unfold broadcast_conv_handle at 1. fold me. rewrite Hconv.
  unfold in_broadcast_conv, receive_broadcast_message. fold me.
  rewrite Hadmin. cbn [negb].
  set (w1 := set_broadcast_conv _ _).
  assert (broadcast_message (get_user_data w1 me) = Some b) as Hbody.
  { unfold w1, get_user_data.
    cbn [user_data set_broadcast_conv emit set_trace set_user_data].
    by rewrite lookup_insert_eq. }
  assert (broadcast_conv w1 !! me = Some CONFIRM_BROADCAST) as Hconv1.
  { unfold w1. cbn [broadcast_conv set_broadcast_conv update_state].
    apply lookup_insert_eq. }
  assert (sends (trace w1) = sends (trace w)) as Hsends1.
  { unfold w1. cbn [trace set_broadcast_conv emit set_trace set_user_data].
    apply sends_reply. }
  pose proof Hbody as Hbody2. pose proof Hconv1 as Hconv2.
  rewrite <- Hsame in Hbody2, Hconv2.
  destruct (broadcast_confirm_callback_spec env2 update2 w1 b Hdata Hbody2 Hne)
    as (w2 & tries & Hrun & Htrace & Hatt & _).
  exists w1, (set_broadcast_conv w2
                (delete (id (effective_user update2)) (broadcast_conv w2))).
  split; [done|]. split; [exact Hsends1|]. split; [exact Hconv1|].
  split; [exact Hbody|]. split.
  { unfold conversations_handle.
    rewrite reply_conv_skips_broadcast_press by (by rewrite Hdata).
    unfold broadcast_conv_handle, in_broadcast_conv.
    rewrite Hconv2, Hrun. unfold is_broadcast_data. by rewrite Hdata. }
  split.
  { cbn [broadcast_conv set_broadcast_conv]. rewrite Hsame.
    apply lookup_delete_eq. }
  exists tries. cbn [trace set_broadcast_conv]. rewrite Htrace.
  split.
  - rewrite !sends_app, Hsends1. simpl.
    rewrite app_nil_r. f_equal.
    clear -Hatt. induction Hatt as [|e c tries chats [r ->] _ IH]; [done|].
    change (sends (SendMessage c ("Announcement:" +:+ nl +:+ nl +:+ b) None r
                   :: tries))
      with (SendMessage c ("Announcement:" +:+ nl +:+ nl +:+ b) None r
            :: sends tries).
    by rewrite IH.
  - clear -Hatt. induction Hatt as [|e c tries chats [r ->] _ IH];
      constructor; eauto.
Qed.

Lemma typed_body_is_broadcast_witness :
  let w := after (Scenario.world (Scenario.crowd 2 100))
             (Some (on_text default_config (Scenario.env [])
                      (Scenario.says Scenario.admin1 "Broadcast")
                      (Scenario.world (Scenario.crowd 2 100)))) in
  exists w1 w2 : World,
    on_text default_config (Scenario.env [])
      (Scenario.says Scenario.admin1 "news") w
      = (w1, Ret (Some CONFIRM_BROADCAST))
    /\ broadcast_message (get_user_data w1 1) = Some "news"%string
    /\ conversations_handle CallbackQuery (Scenario.env [])
         (Scenario.presses Scenario.admin1 "broadcast_confirm") w1
       = Some (w2, Ret (Some END)).
Proof.
  destruct (typed_body_is_broadcast default_config (Scenario.env [])
              (Scenario.env [])
              (Scenario.says Scenario.admin1 "news")
              (Scenario.presses Scenario.admin1 "broadcast_confirm")
              (after (Scenario.world (Scenario.crowd 2 100))
                 (Some (on_text default_config (Scenario.env [])
                          (Scenario.says Scenario.admin1 "Broadcast")
                          (Scenario.world (Scenario.crowd 2 100)))))
              "news"
              ltac:(vm_compute; reflexivity) ltac:(vm_compute; reflexivity)
              ltac:(vm_compute; reflexivity)
              eq_refl ltac:(discriminate) eq_refl eq_refl)
    as (w1 & w2 & H1 & _ & _ & Hbody & H2 & _).
  exists w1, w2. split; [exact H1|]. split; [exact Hbody|exact H2].
Defined.

(** ** Texts that are menu labels *)

(** X27: a text that is one of the nine menu labels is never relayed: when
    a sender who is no admin and is in no conversation types one of them,
    the bot answers the sender (help, or the refusal of an admin command)
    and delivers nothing to the admins; the store and the rate windows stay
    as they were. *)
Theorem menu_labels_are_not_relayed (cfg : Config) (env : Env) (update : Update)
    (w : World) :
  let me := id (effective_user update) in
  AdminManager.is_admin (_admins w) me = false ->
  reply_conv w !! me = None ->
  broadcast_conv w !! me = None ->
  In (text update)
     [Some "Dashboard"; Some "Users"; Some "Logs"; Some "Add Admin";
      Some "Settings"; Some "Broadcast"; Some "Send Message to Admin";
      Some "Help"; Some "About"]%string ->
  let w' := fst (on_text cfg env update w) in
  sends (trace w') = sends (trace w)
  /\ db w' = db w
  /\ _user_messages w' = _user_messages w
  /\ exists answer, trace w' = trace w ++ [ReplyText answer None].
Proof.
  intros me Hadmin Hreply Hbroadcast Hlabel w'. unfold w', on_text,
    reply_conv_handle, broadcast_conv_handle. fold me.
  rewrite Hreply, Hbroadcast. simpl in Hlabel.
  unfold in_broadcast_conv, admin_menu_handler, broadcast_handler,
    menu_handler, help_command, about_command, check_admin. fold me.
  rewrite ?Hadmin. cbn [negb].
  repeat (destruct Hlabel as [<-|Hlabel]); [..|destruct Hlabel];
    repeat match goal with
           | |- context [bool_decide ?P] =>
               first [rewrite (bool_decide_eq_true_2 P) by done
                     |rewrite (bool_decide_eq_false_2 P) by done]
           | |- context [is_admin_menu_text ?t] =>
               let v := eval vm_compute in (is_admin_menu_text t) in
               change (is_admin_menu_text t) with v
           | |- context [is_user_menu_text ?t] =>
               let v := eval vm_compute in (is_user_menu_text t) in
               change (is_user_menu_text t) with v
           end;
    cbv iota; rewrite ?Hadmin; cbn [negb];
    unfold reply_text, emit;
    cbn [fst trace db _user_messages set_trace set_broadcast_conv update_state];
    rewrite sends_reply; eauto 6.
Qed.

Lemma menu_labels_are_not_relayed_witness :
  sends (trace (fst (on_text default_config (Scenario.env [])
                       (Scenario.says Scenario.alice "Help")
                       (Scenario.world []))))
  = [].
Proof.
  exact (proj1 (menu_labels_are_not_relayed default_config (Scenario.env [])
                  (Scenario.says Scenario.alice "Help") (Scenario.world [])
                  ltac:(vm_compute; reflexivity) ltac:(vm_compute; reflexivity)
                  ltac:(vm_compute; reflexivity)
                  ltac:(do 7 right; left; reflexivity))).
Defined.
